(** * Instructor-XL embedding service and BGE reranker service

    A shallow embedding of the two FastAPI applications
    [src/instructor/app_instructor.py] and [src/reranker/app_reranker.py].

    Each application declares pydantic request/response schemas, picks a
    compute device once at import time, loads one model from a fixed path and
    exposes a health route and one inference route.  The imported libraries
    (pydantic, torch, sentence_transformers) are not part of the repository;
    they appear here as interfaces (type classes and records of functions),
    and the handlers are written against those interfaces exactly as the
    Python code is written against the libraries. *)

From Stdlib Require Import ZArith QArith String Floats.SpecFloat.
From stdpp Require Import gmap strings list fin_maps.

Set Warnings "-register-all".
Open Scope Z_scope.

(** ** Python values that cross the HTTP boundary *)

(** A Python [float] is an IEEE-754 double; [spec_float] is the Standard
    Library's axiom-free description of such values. *)
Definition float : Type := spec_float.

(** A decoded JSON request body, as [json.loads] hands it to pydantic: Python
    keeps integers and non-integers apart, and an object is a [dict]. *)
Inductive json : Type :=
  | JNull
  | JBool (b : bool)
  | JInt (z : Z)
  | JFloat (f : float)
  | JStr (s : string)
  | JArr (l : list json)
  | JObj (m : gmap string json).

(** The result of a Python call: a value, or a raised exception (named by its
    class). *)
Inductive outcome (A : Type) : Type :=
  | Return (a : A)
  | Raise (e : string).
Arguments Return {A} a.
Arguments Raise {A} e.

(** What the client sees.  FastAPI answers 422 when the body does not
    validate against the declared request model, and 500 when the handler
    raises. *)
Inductive http_response (A : Type) : Type :=
  | HTTP_200 (body : A)
  | HTTP_422
  | HTTP_500.
Arguments HTTP_200 {A} body.
Arguments HTTP_422 {A}.
Arguments HTTP_500 {A}.

(** ** pydantic: field declarations and their validation *)

(** How pydantic converts a value that is not of the declared JSON kind (a
    numeric string for an [int], [0]/[1] for a [bool], an array of pairs for
    a model, ...) differs between releases and is not fixed by the
    repository; it is left open here.  The functions below are only ever
    consulted on values of another kind than the declared one. *)
Class pydantic : Type := {
  lax_str : json → option string;
  lax_bool : json → option bool;
  lax_int : json → option Z;
  lax_dict : json → option (gmap string json);
}.

(** [Field(...)] marks a required field, [Field(default=d)] an optional one. *)
Inductive field_default (A : Type) : Type :=
  | Required
  | Default (d : A).
Arguments Required {A}.
Arguments Default {A} d.

Section Validators.
Context `{pydantic}.

(** [str] *)
Definition validate_str (j : json) : option string :=
  match j with
  | JStr s => Some s
  | _ => lax_str j
  end.

(** [bool] *)
Definition validate_bool (j : json) : option bool :=
  match j with
  | JBool b => Some b
  | _ => lax_bool j
  end.

(** [int], with the optional lower bound of [Field(ge=...)]; the bound is
    checked on the converted integer. *)
Definition validate_int (ge : option Z) (j : json) : option Z :=
  z ← match j with
      | JInt z => Some z
      | _ => lax_int j
      end;
  match ge with
  | Some lo => if bool_decide (lo ≤ z) then Some z else None
  | None => Some z
  end.

(** [List[T]]: a JSON array all of whose items validate as [T]; the items
    keep their order. *)
Definition validate_list {A : Type} (item : json → option A) (j : json)
  : option (list A) :=
  match j with
  | JArr l => mapM item l
  | _ => None
  end.

(** [Optional[T]]: [null] becomes [None]; anything else is validated as [T]
    (constraints of the field apply to [T]). *)
Definition validate_optional {A : Type} (inner : json → option A) (j : json)
  : option (option A) :=
  match j with
  | JNull => Some None
  | _ => Some <$> inner j
  end.

(** The input of a model: a JSON object, whose members are looked up by field
    name (members that are not fields are ignored). *)
Definition validate_dict (j : json) : option (gmap string json) :=
  match j with
  | JObj m => Some m
  | _ => lax_dict j
  end.

(** One field of a model: the value found under the field's name, if any, is
    validated; an absent optional field takes its default (which pydantic
    does not validate); an absent required field is an error. *)
Definition field {A : Type} (validate : json → option A)
    (default : field_default A) (raw : option json) : option A :=
  match raw with
  | Some j => validate j
  | None =>
      match default with
      | Default d => Some d
      | Required => None
      end
  end.

End Validators.

(** ** torch and sentence_transformers *)

(** [torch.cuda.is_available()], asked once per process. *)
Class torch : Type := {
  cuda_is_available : bool;
}.

(** A loaded embedding model.  [encode] takes the sentences and the keyword
    arguments the service passes ([convert_to_numpy], [normalize_embeddings],
    [batch_size], [show_progress_bar]) and returns the embedding matrix, here
    already as the nested list that [.tolist()] produces, or raises. *)
Record SentenceTransformer : Type := {
  encode : list (list string) → bool → bool → option Z → bool
           → outcome (list (list float));
}.

(** A loaded cross-encoder.  [predict] takes the sentence pairs and
    [batch_size] and returns one score per pair ([.tolist()] applied), or
    raises. *)
Record CrossEncoder : Type := {
  predict : list (string * string) → option Z → outcome (list float);
}.

(** The two constructors: model path and [device=] in, loaded model out (or
    an exception, in which case the module fails to import). *)
Class sentence_transformers : Type := {
  new_SentenceTransformer : string → string → outcome SentenceTransformer;
  new_CrossEncoder : string → string → outcome CrossEncoder;
}.

(** ** A running application *)

(** The module-level globals of an application ([device], [model]) together
    with a log of the model invocations made so far.  The log is not a Python
    variable: it records the calls into sentence_transformers so that "no
    inference was performed" can be stated. *)
Record process (M C : Type) : Type := {
  device : string;
  model : M;
  calls : list C;
}.
Arguments device {M C} p.
Arguments model {M C} p.
Arguments calls {M C} p.

(** Handler bodies run in a process and either return or raise. *)
Definition handler (M C A : Type) : Type :=
  process M C → outcome A * process M C.

#[export] Instance handler_ret {M C} : MRet (handler M C) :=
  λ A a p, (Return a, p).

#[export] Instance handler_bind {M C} : MBind (handler M C) :=
  λ A B f m p,
    match m p with
    | (Return a, p') => f a p'
    | (Raise e, p') => (Raise e, p')
    end.

(** Reading the globals. *)
Definition read_device {M C} : handler M C string :=
  λ p, (Return (device p), p).

Definition read_model {M C} : handler M C M :=
  λ p, (Return (model p), p).

(** A call into the model: its result is whatever the library gives, and the
    call is appended to the log. *)
Definition library_call {M C A} (c : C) (result : outcome A) : handler M C A :=
  λ p, (result, {| device := device p; model := model p;
                   calls := calls p ++ [c] |}).

(** [@app.get(path)] on a handler without parameters. *)
Definition route_get {M C A} (h : handler M C A)
  : process M C → http_response A * process M C :=
  λ p,
    match h p with
    | (Return a, p') => (HTTP_200 a, p')
    | (Raise _, p') => (HTTP_500, p')
    end.

(** [@app.post(path)] on a handler whose parameter is a pydantic model: the
    body is validated first, and the handler only runs on a validated
    request.  What the handler returns is an instance of the declared
    [response_model] and is taken to render as JSON. *)
Definition route_post {M C Rq A} (validate : json → option Rq)
    (h : Rq → handler M C A) (body : json)
  : process M C → http_response A * process M C :=
  λ p,
    match validate body with
    | None => (HTTP_422, p)
    | Some req =>
        match h req p with
        | (Return a, p') => (HTTP_200 a, p')
        | (Raise _, p') => (HTTP_500, p')
        end
    end.

#[export] Instance http_response_fmap : FMap http_response :=
  λ A B f r,
    match r with
    | HTTP_200 a => HTTP_200 (f a)
    | HTTP_422 => HTTP_422
    | HTTP_500 => HTTP_500
    end.

(** Requests handled one after the other by the same process. *)
Fixpoint serve {Rq Rs P : Type} (app : Rq → P → Rs * P) (rqs : list Rq) (p : P)
  : list Rs * P :=
  match rqs with
  | [] => ([], p)
  | rq :: rqs' =>
      let '(r, p') := app rq p in
      let '(rs, p'') := serve app rqs' p' in
      (r :: rs, p'')
  end.

(** ** src/instructor/app_instructor.py *)

Module app_instructor.

(** Schemas *)
Record EmbedRequest : Type := {
  instruction : string;
  texts : list string;
  normalize : bool;
  batch_size : option Z;
}.

Record EmbedResponse : Type := {
  embeddings : list (list float);
}.

Section Schema.
Context `{pydantic}.

Definition EmbedRequest_fields (m : gmap string json) : option EmbedRequest :=
  instruction ← field validate_str
    (Default "Represent the document for retrieval: ")
    (m !! "instruction");
  texts ← field (validate_list validate_str) Required (m !! "texts");
  normalize ← field validate_bool (Default true) (m !! "normalize");
  batch_size ← field (validate_optional (validate_int (Some 1)))
    (Default (Some 32)) (m !! "batch_size");
  Some {| instruction := instruction; texts := texts;
          normalize := normalize; batch_size := batch_size |}.

Definition validate_EmbedRequest (body : json) : option EmbedRequest :=
  validate_dict body ≫= EmbedRequest_fields.

End Schema.

(** App *)
Inductive encode_call : Type :=
  | Encode (sentences : list (list string))
           (convert_to_numpy normalize_embeddings : bool)
           (batch_size : option Z) (show_progress_bar : bool).

Definition app_process : Type := process SentenceTransformer encode_call.

Section Startup.
Context `{torch} `{sentence_transformers}.

(** The module body: [device] is chosen, then the model is loaded onto it. *)
Definition startup : outcome app_process :=
  let device := if cuda_is_available then "cuda" else "cpu" in
  match new_SentenceTransformer "/models/hkunlp__instructor-xl" device with
  | Return model => Return {| device := device; model := model; calls := [] |}
  | Raise e => Raise e
  end.

End Startup.

Definition healthz : handler SentenceTransformer encode_call (gmap string json) :=
  device ← read_device;
  mret {[ "status" := JStr "ok"; "device" := JStr device ]}.

Definition embed (req : EmbedRequest)
  : handler SentenceTransformer encode_call EmbedResponse :=
  let pairs := (λ t, [instruction req; t]) <$> texts req in
  model ← read_model;
  embs ← library_call
    (Encode pairs true (normalize req) (batch_size req) false)
    (encode model pairs true (normalize req) (batch_size req) false);
  mret {| embeddings := embs |}.

(** The routes of the application. *)
Inductive request : Type :=
  | GET_healthz
  | POST_embed (body : json).

Inductive payload : Type :=
  | healthz_payload (d : gmap string json)
  | embed_payload (r : EmbedResponse).

Section App.
Context `{pydantic}.

Definition get_healthz := route_get healthz.

Definition post_embed := route_post validate_EmbedRequest embed.

Definition app (rq : request) (p : app_process)
  : http_response payload * app_process :=
  match rq with
  | GET_healthz => prod_map (fmap healthz_payload) id (get_healthz p)
  | POST_embed body => prod_map (fmap embed_payload) id (post_embed body p)
  end.

End App.

End app_instructor.

(** ** src/reranker/app_reranker.py *)

Module app_reranker.

(** Schemas *)
Record RerankRequest : Type := {
  query : string;
  candidates : list string;
  batch_size : option Z;
}.

Record RerankResponse : Type := {
  scores : list float;
}.

Section Schema.
Context `{pydantic}.

Definition RerankRequest_fields (m : gmap string json) : option RerankRequest :=
  query ← field validate_str Required (m !! "query");
  candidates ← field (validate_list validate_str) Required (m !! "candidates");
  batch_size ← field (validate_optional (validate_int (Some 1)))
    (Default (Some 32)) (m !! "batch_size");
  Some {| query := query; candidates := candidates;
          batch_size := batch_size |}.

Definition validate_RerankRequest (body : json) : option RerankRequest :=
  validate_dict body ≫= RerankRequest_fields.

End Schema.

(** App *)
Inductive predict_call : Type :=
  | Predict (sentences : list (string * string)) (batch_size : option Z).

Definition app_process : Type := process CrossEncoder predict_call.

Section Startup.
Context `{torch} `{sentence_transformers}.

Definition startup : outcome app_process :=
  let device := if cuda_is_available then "cuda" else "cpu" in
  match new_CrossEncoder "/models/BAAI__bge-reranker-large" device with
  | Return model => Return {| device := device; model := model; calls := [] |}
  | Raise e => Raise e
  end.

End Startup.

Definition healthz : handler CrossEncoder predict_call (gmap string json) :=
  device ← read_device;
  mret {[ "status" := JStr "ok"; "device" := JStr device ]}.

Definition rerank (req : RerankRequest)
  : handler CrossEncoder predict_call RerankResponse :=
  let pairs := (λ c, (query req, c)) <$> candidates req in
  model ← read_model;
  scores ← library_call
    (Predict pairs (batch_size req))
    (predict model pairs (batch_size req));
  mret {| scores := scores |}.

(** The routes of the application. *)
Inductive request : Type :=
  | GET_healthz
  | POST_rerank (body : json).

Inductive payload : Type :=
  | healthz_payload (d : gmap string json)
  | rerank_payload (r : RerankResponse).

Section App.
Context `{pydantic}.

Definition get_healthz := route_get healthz.

Definition post_rerank := route_post validate_RerankRequest rerank.

Definition app (rq : request) (p : app_process)
  : http_response payload * app_process :=
  match rq with
  | GET_healthz => prod_map (fmap healthz_payload) id (get_healthz p)
  | POST_rerank body => prod_map (fmap rerank_payload) id (post_rerank body p)
  end.

End App.

End app_reranker.

(** ** What the services rely on from the models

    The handlers return what the model returns; that a response has one row
    per input is therefore a property of the model.  The conditions below say
    what is expected of a model, for a given reading [embeds] of "this vector
    is the model's embedding of this sentence" (resp. [scores_pair] for
    scores); they say nothing about when the model raises, and nothing about
    batch sizes below 1, which the request schemas keep away from the
    model. *)

(** The batch sizes a validated request can carry: [None], or an integer that
    passed [ge=1]. *)
Definition accepted_batch_size (bs : option Z) : Prop :=
  ∀ b, bs = Some b → 1 ≤ b.

(** Whenever [encode] returns, it returns one vector per sentence, in the
    order of the sentences, and every vector has the model's dimension. *)
Record lawful_encoder (m : SentenceTransformer)
    (embeds : bool → list string → list float → Prop) (dim : nat) : Prop := {
  encode_rows : ∀ sentences cn nz bs pb out,
    accepted_batch_size bs →
    encode m sentences cn nz bs pb = Return out →
    Forall2 (embeds nz) sentences out;
  embeds_dim : ∀ nz s v, embeds nz s v → length v = dim;
}.

(** Whenever [predict] returns, it returns one score per pair, in the order of
    the pairs. *)
Definition lawful_scorer (m : CrossEncoder)
    (scores_pair : string * string → float → Prop) : Prop :=
  ∀ sentences bs out,
    accepted_batch_size bs →
    predict m sentences bs = Return out → Forall2 scores_pair sentences out.

(** ** The length of an embedding

    The vectors of a response are lists of floats.  A finite float denotes
    the rational [(-1)^s * m * 2^e], so the squared Euclidean length of a
    vector of finite floats is a rational, computed here exactly. *)

(** The number a float stands for; none for infinities and NaN. *)
Definition float_value (f : float) : option Q :=
  match f with
  | S754_zero _ => Some 0%Q
  | S754_finite s m e =>
      Some (inject_Z (if s then Z.neg m else Z.pos m) * Qpower 2 e)%Q
  | S754_infinity _ | S754_nan => None
  end.

(** The sum of the squares of the components. *)
Fixpoint squared_norm (v : list float) : option Q :=
  match v with
  | [] => Some 0%Q
  | f :: v' =>
      x ← float_value f;
      rest ← squared_norm v';
      Some (x * x + rest)%Q
  end.

(** [| ‖v‖ - 1 | ≤ tol], for a tolerance [tol ≥ 0]: all components are
    finite, [‖v‖² ≤ (1 + tol)²], and [(1 - tol)² ≤ ‖v‖²] unless [1 - tol] is
    not positive.  Stated on the squares, so that no square root is needed. *)
Definition unit_norm_b (tol : Q) (v : list float) : bool :=
  match squared_norm v with
  | Some n2 =>
      Qle_bool 0 tol
      && (Qle_bool 1 tol || Qle_bool ((1 - tol) * (1 - tol)) n2)
      && Qle_bool n2 ((1 + tol) * (1 + tol))
  | None => false
  end.

Definition unit_norm (tol : Q) (v : list float) : Prop :=
  unit_norm_b tol v = true.

(** What [normalize_embeddings=True] asks of the model: every vector it
    gives in that mode has length one, up to [tol]. *)
Definition normalizing_encoder
    (embeds : bool → list string → list float → Prop) (tol : Q) : Prop :=
  ∀ s v, embeds true s v → unit_norm tol v.

(** ** A small runtime to run the services on

    Concrete stand-ins for the three libraries, so that the services can be
    evaluated: a pydantic without conversions, a host with an accelerator, and
    two models that work through their input in batches of [batch_size]. *)

Module reference_runtime.

Definition strict_pydantic : pydantic :=
  {| lax_str := λ _, None; lax_bool := λ _, None; lax_int := λ _, None;
     lax_dict := λ _, None |}.

Definition accelerated : torch := {| cuda_is_available := true |}.

(** [l[0:n], l[n:2n], ...]; [fuel] bounds the number of batches. *)
Fixpoint batches {A : Type} (fuel n : nat) (l : list A) : list (list A) :=
  match fuel, l with
  | O, _ | _, [] => []
  | S fuel', _ => take n l :: batches fuel' n (drop n l)
  end.

Definition one : float := S754_finite false 1 0.
Definition zero : float := S754_zero false.

(** A two-dimensional embedding: the number of characters of the text along
    the first axis, scaled to length one on request. *)
Definition vector (nz : bool) (sentence : list string) : list float :=
  let n := Pos.of_succ_nat (String.length (String.concat "" sentence)) in
  [if nz then one else S754_finite false n 0; zero].

(** The batches start at [range(0, len(sentences), batch_size)]: Python
    refuses a step that is not an integer ([TypeError]) or is zero
    ([ValueError]), and a negative step gives no batch at all. *)
Definition in_batches {A B : Type} (run : list A → list B)
    (sentences : list A) (bs : option Z) : outcome (list B) :=
  match bs with
  | None => Raise "TypeError"
  | Some 0 => Raise "ValueError"
  | Some (Z.neg _) => Return []
  | Some (Z.pos n) =>
      Return (concat (run <$> batches (length sentences) (Pos.to_nat n) sentences))
  end.

Definition encoder : SentenceTransformer :=
  {| encode := λ sentences _ nz bs _,
       in_batches (fmap (vector nz)) sentences bs |}.

Definition score (pair : string * string) : float :=
  S754_finite false (Pos.of_succ_nat (String.length (snd pair))) 0.

Definition scorer : CrossEncoder :=
  {| predict := λ sentences bs, in_batches (fmap score) sentences bs |}.

Definition models : sentence_transformers :=
  {| new_SentenceTransformer := λ _ _, Return encoder;
     new_CrossEncoder := λ _ _, Return scorer |}.

(** "This vector is the reference encoder's embedding of this sentence." *)
Definition embeds (nz : bool) (s : list string) (v : list float) : Prop :=
  v = vector nz s.

Definition scores_pair (pair : string * string) (x : float) : Prop :=
  x = score pair.

(** Freshly started processes and two request bodies to run them on. *)
Definition instructor_process : process SentenceTransformer app_instructor.encode_call :=
  {| device := "cuda"; model := encoder; calls := [] |}.

Definition reranker_process : process CrossEncoder app_reranker.predict_call :=
  {| device := "cuda"; model := scorer; calls := [] |}.

Definition embed_body : json :=
  JObj {[ "texts" := JArr [JStr "a"; JStr "b"] ]}.

Definition rerank_body : json :=
  JObj {[ "query" := JStr "q"; "candidates" := JArr [JStr "x"; JStr "y"; JStr "z"] ]}.

Definition embed_request : app_instructor.EmbedRequest :=
  {| app_instructor.instruction := "Represent the document for retrieval: ";
     app_instructor.texts := ["a"; "b"];
     app_instructor.normalize := true;
     app_instructor.batch_size := Some 32 |}.

Definition rerank_request : app_reranker.RerankRequest :=
  {| app_reranker.query := "q";
     app_reranker.candidates := ["x"; "y"; "z"];
     app_reranker.batch_size := Some 32 |}.

End reference_runtime.

(** * Properties *)

(** ** Validation of a JSON object *)

Lemma validate_EmbedRequest_obj `{pydantic} m :
  app_instructor.validate_EmbedRequest (JObj m) = app_instructor.EmbedRequest_fields m.
Proof. done. Qed.

Lemma validate_RerankRequest_obj `{pydantic} m :
  app_reranker.validate_RerankRequest (JObj m) = app_reranker.RerankRequest_fields m.
Proof. done. Qed.

(** Expose the field-by-field validation of object bodies. *)
Ltac by_fields :=
  rewrite ?validate_EmbedRequest_obj, ?validate_RerankRequest_obj in *;
  unfold app_instructor.EmbedRequest_fields, app_reranker.RerankRequest_fields in *.

(** ** The handlers, step by step *)

(** [embed] makes exactly one call to the model, on the list of
    [[instruction, t]] pairs and with the request's flags, and wraps what the
    call returns. *)
Lemma embed_run (req : app_instructor.EmbedRequest) (p : app_instructor.app_process) :
  let pairs := (λ t, [app_instructor.instruction req; t]) <$> app_instructor.texts req in
  let nz := app_instructor.normalize req in
  let bs := app_instructor.batch_size req in
  app_instructor.embed req p =
    (match encode (model p) pairs true nz bs false with
     | Return embs => Return {| app_instructor.embeddings := embs |}
     | Raise e => Raise e
     end,
     {| device := device p; model := model p;
        calls := calls p ++ [app_instructor.Encode pairs true nz bs false] |}).
Proof.
  cbv [app_instructor.embed mbind handler_bind mret handler_ret read_model
       library_call]; simpl.
  by destruct (encode _ _ _ _ _ _).
Qed.

Lemma rerank_run (req : app_reranker.RerankRequest) (q : app_reranker.app_process) :
  let pairs := (λ c, (app_reranker.query req, c)) <$> app_reranker.candidates req in
  let bs := app_reranker.batch_size req in
  app_reranker.rerank req q =
    (match predict (model q) pairs bs with
     | Return scores => Return {| app_reranker.scores := scores |}
     | Raise e => Raise e
     end,
     {| device := device q; model := model q;
        calls := calls q ++ [app_reranker.Predict pairs bs] |}).
Proof.
  cbv [app_reranker.rerank mbind handler_bind mret handler_ret read_model
       library_call]; simpl.
  by destruct (predict _ _ _).
Qed.

Section Routes.
Context `{pydantic}.

(** A body that does not validate is answered 422 and leaves the process as
    it was. *)
Lemma post_embed_invalid body p :
  app_instructor.validate_EmbedRequest body = None →
  app_instructor.post_embed body p = (HTTP_422, p).
Proof.
  intros Hv. unfold app_instructor.post_embed, route_post. by rewrite Hv.
Qed.

Lemma post_rerank_invalid body q :
  app_reranker.validate_RerankRequest body = None →
  app_reranker.post_rerank body q = (HTTP_422, q).
Proof.
  intros Hv. unfold app_reranker.post_rerank, route_post. by rewrite Hv.
Qed.

(** A body that validates is answered by the handler: 200 with the model's
    output, or 500 when the model raises. *)
Lemma post_embed_valid body req p :
  app_instructor.validate_EmbedRequest body = Some req →
  let pairs := (λ t, [app_instructor.instruction req; t]) <$> app_instructor.texts req in
  let nz := app_instructor.normalize req in
  let bs := app_instructor.batch_size req in
  app_instructor.post_embed body p =
    (match encode (model p) pairs true nz bs false with
     | Return embs => HTTP_200 {| app_instructor.embeddings := embs |}
     | Raise _ => HTTP_500
     end,
     {| device := device p; model := model p;
        calls := calls p ++ [app_instructor.Encode pairs true nz bs false] |}).
Proof.
  intros Hv. simpl. unfold app_instructor.post_embed, route_post.
  rewrite Hv, embed_run. by destruct (encode _ _ _ _ _ _).
Qed.

Lemma post_rerank_valid body req q :
  app_reranker.validate_RerankRequest body = Some req →
  let pairs := (λ c, (app_reranker.query req, c)) <$> app_reranker.candidates req in
  let bs := app_reranker.batch_size req in
  app_reranker.post_rerank body q =
    (match predict (model q) pairs bs with
     | Return scores => HTTP_200 {| app_reranker.scores := scores |}
     | Raise _ => HTTP_500
     end,
     {| device := device q; model := model q;
        calls := calls q ++ [app_reranker.Predict pairs bs] |}).
Proof.
  intros Hv. simpl. unfold app_reranker.post_rerank, route_post.
  rewrite Hv, rerank_run. by destruct (predict _ _ _).
Qed.

End Routes.

(** ** The reference models honour the conditions *)

Lemma concat_batches {A : Type} (fuel n : nat) (l : list A) :
  (0 < n)%nat → (length l ≤ fuel)%nat →
  concat (reference_runtime.batches fuel n l) = l.
Proof.
  intros Hn. revert l.
  induction fuel as [|fuel IH]; intros [|a l] Hlen; simpl in *; try done.
  - lia.
  - destruct n as [|n]; [lia|]. simpl. f_equal.
    rewrite IH; [apply take_drop|].
    rewrite length_drop. lia.
Qed.

Lemma concat_fmap_fmap {A B : Type} (f : A → B) (ls : list (list A)) :
  concat (fmap (M:=list) f <$> ls) = f <$> concat ls.
Proof.
  induction ls as [|l ls IH]; [done|].
  rewrite fmap_cons. simpl. by rewrite fmap_app, IH.
Qed.

(** Working in batches changes nothing to the result: it is the item-wise
    image of the input, whatever the (accepted) batch size. *)
Lemma in_batches_fmap {A B : Type} (f : A → B) (l : list A) bs out :
  accepted_batch_size bs →
  reference_runtime.in_batches (fmap (M:=list) f) l bs = Return out →
  out = f <$> l.
Proof.
  unfold reference_runtime.in_batches. intros Hbs.
  destruct bs as [[|n|n]|]; try done.
  - intros [= <-]. rewrite concat_fmap_fmap, concat_batches; [done|lia|done].
  - specialize (Hbs _ eq_refl). lia.
Qed.

(** With a batch size below 1 the reference encoder would lose rows: the
    schemas' [ge=1] is what rules this out. *)
Example negative_batch_size_loses_rows :
  encode reference_runtime.encoder [["i"; "a"]; ["i"; "b"]] true true (Some (-1)) false
  = Return [].
Proof. reflexivity. Qed.

Lemma encoder_lawful :
  lawful_encoder reference_runtime.encoder reference_runtime.embeds 2.
Proof.
  split.
  - intros sentences cn nz bs pb out Hbs Hout. simpl in Hout.
    apply in_batches_fmap in Hout as ->; [|done].
    apply Forall2_fmap_r, Forall_Forall2_diag, Forall_forall.
    by intros.
  - by intros nz s v ->.
Qed.

Lemma scorer_lawful :
  lawful_scorer reference_runtime.scorer reference_runtime.scores_pair.
Proof.
  intros sentences bs out Hbs Hout. simpl in Hout.
  apply in_batches_fmap in Hout as ->; [|done].
  apply Forall2_fmap_r, Forall_Forall2_diag, Forall_forall.
  by intros.
Qed.

(** ** Validated requests carry an accepted batch size *)

Section Accepted.
Context `{pydantic}.

Lemma validate_int_ge lo j z : validate_int (Some lo) j = Some z → lo ≤ z.
Proof.
  unfold validate_int. intros Hz.
  destruct (match j with JInt z0 => Some z0 | _ => lax_int j end) as [z0|];
    simpl in Hz; [|done].
  case_bool_decide; [|done]. by injection Hz as <-.
Qed.

Lemma batch_size_field_accepted raw bs :
  field (validate_optional (validate_int (Some 1))) (Default (Some 32)) raw = Some bs →
  accepted_batch_size bs.
Proof.
  intros Hbs b ->. destruct raw as [j|]; simpl in Hbs.
  - unfold validate_optional in Hbs.
    destruct (validate_int (Some 1) j) as [z|] eqn:Hz;
      destruct j; simpl in Hbs; try done;
      injection Hbs as <-; by apply validate_int_ge in Hz.
  - injection Hbs as <-. lia.
Qed.

Lemma validate_EmbedRequest_accepted body req :
  app_instructor.validate_EmbedRequest body = Some req →
  accepted_batch_size (app_instructor.batch_size req).
Proof.
  unfold app_instructor.validate_EmbedRequest.
  destruct (validate_dict body) as [m|]; simpl; [|done].
  unfold app_instructor.EmbedRequest_fields.
  destruct (field validate_str _ _); [|done].
  destruct (field (validate_list validate_str) _ _); [|done].
  destruct (field validate_bool _ _); [|done].
  destruct (field (validate_optional _) _ _) as [bs|] eqn:Hbs; [|done].
  simpl. intros [= <-]. simpl. by eapply batch_size_field_accepted.
Qed.

Lemma validate_RerankRequest_accepted body req :
  app_reranker.validate_RerankRequest body = Some req →
  accepted_batch_size (app_reranker.batch_size req).
Proof.
  unfold app_reranker.validate_RerankRequest.
  destruct (validate_dict body) as [m|]; simpl; [|done].
  unfold app_reranker.RerankRequest_fields.
  destruct (field validate_str _ _); [|done].
  destruct (field (validate_list validate_str) _ _); [|done].
  destruct (field (validate_optional _) _ _) as [bs|] eqn:Hbs; [|done].
  simpl. intros [= <-]. simpl. by eapply batch_size_field_accepted.
Qed.

End Accepted.

(** ** Output shape and order *)

Section Shape.
Context `{pydantic}.

Lemma embed_rows embeds dim body req p resp p' :
  lawful_encoder (model p) embeds dim →
  app_instructor.validate_EmbedRequest body = Some req →
  app_instructor.post_embed body p = (HTTP_200 resp, p') →
  Forall2
    (λ t v, embeds (app_instructor.normalize req) [app_instructor.instruction req; t] v
            ∧ length v = dim)
    (app_instructor.texts req) (app_instructor.embeddings resp).
Proof.
  intros [Hrows Hdim] Hv Hpost.
  rewrite (post_embed_valid _ _ _ Hv) in Hpost. simpl in Hpost.
  destruct (encode _ _ _ _ _ _) as [embs|e] eqn:Henc; [|done].
  injection Hpost as <- _. simpl.
  apply Hrows in Henc; [|by eapply validate_EmbedRequest_accepted].
  rewrite Forall2_fmap_l in Henc.
  eapply Forall2_impl; [exact Henc|].
  intros t v Htv. split; [exact Htv|]. eapply Hdim, Htv.
Qed.

Lemma rerank_rows scores_pair body req q resp q' :
  lawful_scorer (model q) scores_pair →
  app_reranker.validate_RerankRequest body = Some req →
  app_reranker.post_rerank body q = (HTTP_200 resp, q') →
  Forall2 (λ c s, scores_pair (app_reranker.query req, c) s)
    (app_reranker.candidates req) (app_reranker.scores resp).
Proof.
  intros Hlaw Hv Hpost.
  rewrite (post_rerank_valid _ _ _ Hv) in Hpost. simpl in Hpost.
  destruct (predict _ _ _) as [out|e] eqn:Hpred; [|done].
  injection Hpost as <- _. simpl.
  apply Hlaw in Hpred; [|by eapply validate_RerankRequest_accepted].
  by rewrite Forall2_fmap_l in Hpred.
Qed.

End Shape.

(** C1: for every valid request, the list in the response has the length of
    the input list and follows its order.  A valid request to [/embed] is
    never answered with a client error; unless the model call raised (server
    error), the response holds exactly one embedding per element of [texts],
    the i-th one being the model's embedding of [[instruction, texts[i]]].
    Likewise [/rerank] answers with exactly one score per element of
    [candidates], the i-th one being the model's score of
    [(query, candidates[i])]. *)
Theorem response_one_per_input `{pydantic} :
  (∀ embeds dim body req (p : app_instructor.app_process),
     lawful_encoder (model p) embeds dim →
     app_instructor.validate_EmbedRequest body = Some req →
     match (app_instructor.post_embed body p).1 with
     | HTTP_200 resp =>
         length (app_instructor.embeddings resp) = length (app_instructor.texts req) ∧
         ∀ i t, app_instructor.texts req !! i = Some t →
           ∃ v, app_instructor.embeddings resp !! i = Some v ∧
                embeds (app_instructor.normalize req)
                       [app_instructor.instruction req; t] v
     | HTTP_500 =>
         ∃ e, encode (model p)
                ((λ t, [app_instructor.instruction req; t]) <$> app_instructor.texts req)
                true (app_instructor.normalize req) (app_instructor.batch_size req)
                false = Raise e
     | HTTP_422 => False
     end) ∧
  (∀ scores_pair body req (q : app_reranker.app_process),
     lawful_scorer (model q) scores_pair →
     app_reranker.validate_RerankRequest body = Some req →
     match (app_reranker.post_rerank body q).1 with
     | HTTP_200 resp =>
         length (app_reranker.scores resp) = length (app_reranker.candidates req) ∧
         ∀ i c, app_reranker.candidates req !! i = Some c →
           ∃ s, app_reranker.scores resp !! i = Some s ∧
                scores_pair (app_reranker.query req, c) s
     | HTTP_500 =>
         ∃ e, predict (model q)
                ((λ c, (app_reranker.query req, c)) <$> app_reranker.candidates req)
                (app_reranker.batch_size req) = Raise e
     | HTTP_422 => False
     end).
Proof.
  split.
  - intros embeds dim body req p Hlaw Hv.
    destruct (app_instructor.post_embed body p) as [answer p'] eqn:Hpost.
    destruct answer as [resp| |]; simpl.
    + pose proof (embed_rows _ _ _ _ _ _ _ Hlaw Hv Hpost) as Hrows.
      split; [symmetry; eapply Forall2_length, Hrows|].
      intros i t Ht.
      destruct (Forall2_lookup_l _ _ _ _ _ Hrows Ht) as (v & Hv' & Hemb & _).
      eauto.
    + rewrite (post_embed_valid _ _ _ Hv) in Hpost. simpl in Hpost.
      by destruct (encode _ _ _ _ _ _).
    + rewrite (post_embed_valid _ _ _ Hv) in Hpost. simpl in Hpost.
      destruct (encode _ _ _ _ _ _); [done|eauto].
  - intros scores_pair body req q Hlaw Hv.
    destruct (app_reranker.post_rerank body q) as [answer q'] eqn:Hpost.
    destruct answer as [resp| |]; simpl.
    + pose proof (rerank_rows _ _ _ _ _ _ Hlaw Hv Hpost) as Hrows.
      split; [symmetry; eapply Forall2_length, Hrows|].
      intros i c Hc.
      destruct (Forall2_lookup_l _ _ _ _ _ Hrows Hc) as (s & Hs & Hsc).
      eauto.
    + rewrite (post_rerank_valid _ _ _ Hv) in Hpost. simpl in Hpost.
      by destruct (predict _ _ _).
    + rewrite (post_rerank_valid _ _ _ Hv) in Hpost. simpl in Hpost.
      destruct (predict _ _ _); [done|eauto].
Qed.

Lemma response_one_per_input_witness :
  let embed_response :=
    (@app_instructor.post_embed reference_runtime.strict_pydantic
       reference_runtime.embed_body reference_runtime.instructor_process).1 in
  let rerank_response :=
    (@app_reranker.post_rerank reference_runtime.strict_pydantic
       reference_runtime.rerank_body reference_runtime.reranker_process).1 in
  (∃ resp, embed_response = HTTP_200 resp ∧
           length (app_instructor.embeddings resp) = 2%nat) ∧
  (∃ resp, rerank_response = HTTP_200 resp ∧
           length (app_reranker.scores resp) = 3%nat).
Proof.
  destruct (@response_one_per_input reference_runtime.strict_pydantic)
    as [Hembed Hrerank].
  split.
  - pose proof (Hembed reference_runtime.embeds 2%nat reference_runtime.embed_body
                  reference_runtime.embed_request
                  reference_runtime.instructor_process
                  encoder_lawful eq_refl) as Hshape.
    eexists. split; [reflexivity|]. exact (proj1 Hshape).
  - pose proof (Hrerank reference_runtime.scores_pair reference_runtime.rerank_body
                  reference_runtime.rerank_request
                  reference_runtime.reranker_process
                  scorer_lawful eq_refl) as Hshape.
    eexists. split; [reflexivity|]. exact (proj1 Hshape).
Defined.

(** ** The embed and rerank contracts *)

(** C2: for every valid EmbedRequest, [/embed] pairs each element [t] of
    [texts] with the request's instruction (the sentence list is
    [[instruction, t]] for each [t], in the order of [texts]), makes one call
    to the loaded model on that list with [normalize_embeddings] equal to the
    request's [normalize], and answers with the vectors exactly as the model
    returned them (a server error if the model raised). *)
Theorem embed_contract `{pydantic} body req (p : app_instructor.app_process) :
  app_instructor.validate_EmbedRequest body = Some req →
  ∃ pairs,
    Forall2 (λ t s, s = [app_instructor.instruction req; t])
      (app_instructor.texts req) pairs ∧
    calls (app_instructor.post_embed body p).2 =
      calls p ++ [app_instructor.Encode pairs true (app_instructor.normalize req)
                    (app_instructor.batch_size req) false] ∧
    (app_instructor.post_embed body p).1 =
      match encode (model p) pairs true (app_instructor.normalize req)
              (app_instructor.batch_size req) false with
      | Return embs => HTTP_200 {| app_instructor.embeddings := embs |}
      | Raise _ => HTTP_500
      end.
Proof.
  intros Hv.
  exists ((λ t, [app_instructor.instruction req; t]) <$> app_instructor.texts req).
  split; [|by rewrite (post_embed_valid _ _ _ Hv)].
  apply Forall2_fmap_r, Forall_Forall2_diag, Forall_forall. by intros.
Qed.

Lemma embed_contract_witness :
  ∃ pairs,
    pairs = [["Represent the document for retrieval: "; "a"];
             ["Represent the document for retrieval: "; "b"]] ∧
    calls (@app_instructor.post_embed reference_runtime.strict_pydantic
             reference_runtime.embed_body reference_runtime.instructor_process).2 =
      [app_instructor.Encode pairs true true (Some 32) false].
Proof.
  destruct (@embed_contract reference_runtime.strict_pydantic
              reference_runtime.embed_body reference_runtime.embed_request
              reference_runtime.instructor_process eq_refl)
    as (pairs & Hpairs & Hcalls & _).
  exists pairs. split; [|exact Hcalls].
  simpl in Hpairs.
  repeat match goal with
         | H : Forall2 _ _ _ |- _ => inversion H; clear H; subst
         end.
  reflexivity.
Defined.

(** C3: for every valid RerankRequest, [/rerank] forms the pair [(query, c)]
    for each element [c] of [candidates], in the order of [candidates], makes
    one call to the loaded cross-encoder on that list, and answers with the
    scores exactly as the model returned them (a server error if the model
    raised); with a model that scores pair by pair, the i-th score is the one
    of [(query, candidates[i])]. *)
Theorem rerank_contract `{pydantic} scores_pair body req (q : app_reranker.app_process) :
  app_reranker.validate_RerankRequest body = Some req →
  ∃ pairs,
    Forall2 (λ c s, s = (app_reranker.query req, c))
      (app_reranker.candidates req) pairs ∧
    calls (app_reranker.post_rerank body q).2 =
      calls q ++ [app_reranker.Predict pairs (app_reranker.batch_size req)] ∧
    (app_reranker.post_rerank body q).1 =
      match predict (model q) pairs (app_reranker.batch_size req) with
      | Return scores => HTTP_200 {| app_reranker.scores := scores |}
      | Raise _ => HTTP_500
      end ∧
    (lawful_scorer (model q) scores_pair →
     ∀ resp, (app_reranker.post_rerank body q).1 = HTTP_200 resp →
       Forall2 (λ c s, scores_pair (app_reranker.query req, c) s)
         (app_reranker.candidates req) (app_reranker.scores resp)).
Proof.
  intros Hv.
  exists ((λ c, (app_reranker.query req, c)) <$> app_reranker.candidates req).
  split; [|split; [|split]].
  - apply Forall2_fmap_r, Forall_Forall2_diag, Forall_forall. by intros.
  - by rewrite (post_rerank_valid _ _ _ Hv).
  - by rewrite (post_rerank_valid _ _ _ Hv).
  - intros Hlaw resp Hresp.
    eapply rerank_rows; [exact Hlaw|exact Hv|].
    rewrite <- Hresp. apply surjective_pairing.
Qed.

Lemma rerank_contract_witness :
  ∃ pairs,
    pairs = [("q", "x"); ("q", "y"); ("q", "z")] ∧
    calls (@app_reranker.post_rerank reference_runtime.strict_pydantic
             reference_runtime.rerank_body reference_runtime.reranker_process).2 =
      [app_reranker.Predict pairs (Some 32)].
Proof.
  destruct (@rerank_contract reference_runtime.strict_pydantic
              reference_runtime.scores_pair
              reference_runtime.rerank_body reference_runtime.rerank_request
              reference_runtime.reranker_process eq_refl)
    as (pairs & Hpairs & Hcalls & _).
  exists pairs. split; [|exact Hcalls].
  simpl in Hpairs.
  repeat match goal with
         | H : Forall2 _ _ _ |- _ => inversion H; clear H; subst
         end.
  reflexivity.
Defined.

(** ** Validation *)

Section Validation.
Context `{pydantic}.

(** An integer below the bound of [Field(ge=1)] does not validate. *)
Lemma batch_size_below_one z :
  z < 1 →
  field (validate_optional (validate_int (Some 1))) (Default (Some 32))
    (Some (JInt z)) = None.
Proof.
  intros Hz. simpl. unfold validate_int. simpl.
  rewrite bool_decide_eq_false_2; [done|lia].
Qed.

(** [null] validates, as [None]. *)
Lemma batch_size_null :
  field (validate_optional (validate_int (Some 1))) (Default (Some 32))
    (Some JNull) = Some None.
Proof. done. Qed.

(** A JSON array of strings validates as [List[str]], item by item. *)
Lemma validate_list_str (ts : list string) :
  validate_list validate_str (JArr (JStr <$> ts)) = Some ts.
Proof. simpl. by apply mapM_fmap_Some. Qed.

Lemma validate_EmbedRequest_missing_texts m :
  m !! "texts" = None →
  app_instructor.validate_EmbedRequest (JObj m) = None.
Proof.
  intros Ht. by_fields. rewrite Ht.
  by destruct (field validate_str _ _).
Qed.

Lemma validate_EmbedRequest_batch_size m z :
  m !! "batch_size" = Some (JInt z) → z < 1 →
  app_instructor.validate_EmbedRequest (JObj m) = None.
Proof.
  intros Hb Hz. by_fields.
  rewrite Hb, (batch_size_below_one z Hz).
  destruct (field validate_str _ _); [|done].
  destruct (field (validate_list validate_str) _ _); [|done].
  by destruct (field validate_bool _ _).
Qed.

Lemma validate_RerankRequest_missing_query m :
  m !! "query" = None →
  app_reranker.validate_RerankRequest (JObj m) = None.
Proof.
  intros Hq. by_fields. by rewrite Hq.
Qed.

Lemma validate_RerankRequest_missing_candidates m :
  m !! "candidates" = None →
  app_reranker.validate_RerankRequest (JObj m) = None.
Proof.
  intros Hc. by_fields. rewrite Hc.
  by destruct (field validate_str _ _).
Qed.

Lemma validate_RerankRequest_batch_size m z :
  m !! "batch_size" = Some (JInt z) → z < 1 →
  app_reranker.validate_RerankRequest (JObj m) = None.
Proof.
  intros Hb Hz. by_fields.
  rewrite Hb, (batch_size_below_one z Hz).
  destruct (field validate_str _ _); [|done].
  by destruct (field (validate_list validate_str) _ _).
Qed.

End Validation.

(** C4: a request to [/embed] whose body lacks [texts], a request to
    [/rerank] whose body lacks [query] or [candidates], and a request to
    either whose [batch_size] is an integer less than 1, is answered with the
    client error 422; the process is left exactly as it was, so the model has
    not been called, and the answer carries no response body. *)
Theorem invalid_request_rejected `{pydantic} :
  (∀ m (p : app_instructor.app_process),
     m !! "texts" = None ∨
     (∃ z, m !! "batch_size" = Some (JInt z) ∧ z < 1) →
     app_instructor.post_embed (JObj m) p = (HTTP_422, p)) ∧
  (∀ m (q : app_reranker.app_process),
     m !! "query" = None ∨ m !! "candidates" = None ∨
     (∃ z, m !! "batch_size" = Some (JInt z) ∧ z < 1) →
     app_reranker.post_rerank (JObj m) q = (HTTP_422, q)).
Proof.
  split.
  - intros m p [Ht|(z & Hb & Hz)]; apply post_embed_invalid.
    + by apply validate_EmbedRequest_missing_texts.
    + by eapply validate_EmbedRequest_batch_size.
  - intros m q [Hq|[Hc|(z & Hb & Hz)]]; apply post_rerank_invalid.
    + by apply validate_RerankRequest_missing_query.
    + by apply validate_RerankRequest_missing_candidates.
    + by eapply validate_RerankRequest_batch_size.
Qed.

Lemma invalid_request_rejected_witness :
  @app_instructor.post_embed reference_runtime.strict_pydantic
    (JObj {[ "texts" := JArr [JStr "a"]; "batch_size" := JInt 0 ]})
    reference_runtime.instructor_process
  = (HTTP_422, reference_runtime.instructor_process) ∧
  @app_reranker.post_rerank reference_runtime.strict_pydantic
    (JObj {[ "query" := JStr "q" ]}) reference_runtime.reranker_process
  = (HTTP_422, reference_runtime.reranker_process).
Proof.
  destruct (@invalid_request_rejected reference_runtime.strict_pydantic)
    as [Hembed Hrerank].
  split.
  - apply Hembed. right. exists 0. split; [reflexivity|lia].
  - apply Hrerank. right. left. reflexivity.
Defined.

(** C5: an EmbedRequest whose body omits [instruction], [normalize] or
    [batch_size] gets, for each omitted field, the default
    ["Represent the document for retrieval: "], [true] and [32]; a
    RerankRequest whose body omits [batch_size] gets [32].  In particular a
    body with nothing but the required fields validates to the request with
    all defaults. *)
Theorem defaults_applied `{pydantic} :
  (∀ m req,
     app_instructor.validate_EmbedRequest (JObj m) = Some req →
     (m !! "instruction" = None →
      app_instructor.instruction req = "Represent the document for retrieval: ") ∧
     (m !! "normalize" = None → app_instructor.normalize req = true) ∧
     (m !! "batch_size" = None → app_instructor.batch_size req = Some 32)) ∧
  (∀ m req,
     app_reranker.validate_RerankRequest (JObj m) = Some req →
     m !! "batch_size" = None → app_reranker.batch_size req = Some 32) ∧
  (∀ ts,
     app_instructor.validate_EmbedRequest (JObj {[ "texts" := JArr (JStr <$> ts) ]}) =
     Some {| app_instructor.instruction := "Represent the document for retrieval: ";
             app_instructor.texts := ts;
             app_instructor.normalize := true;
             app_instructor.batch_size := Some 32 |}) ∧
  (∀ qy cs,
     app_reranker.validate_RerankRequest
       (JObj {[ "query" := JStr qy; "candidates" := JArr (JStr <$> cs) ]}) =
     Some {| app_reranker.query := qy;
             app_reranker.candidates := cs;
             app_reranker.batch_size := Some 32 |}).
Proof.
  split; [|split; [|split]].
  - intros m req Hv. by_fields.
    destruct (field validate_str _ _) as [ins|] eqn:Hins; [|done].
    destruct (field (validate_list validate_str) _ _) as [ts|]; [|done].
    destruct (field validate_bool _ _) as [nz|] eqn:Hnz; [|done].
    destruct (field (validate_optional _) _ _) as [bs|] eqn:Hbs; [|done].
    simpl in Hv. injection Hv as <-. simpl.
    split; [|split]; intros Hnone.
    + rewrite Hnone in Hins. simpl in Hins. congruence.
    + rewrite Hnone in Hnz. simpl in Hnz. congruence.
    + rewrite Hnone in Hbs. simpl in Hbs. congruence.
  - intros m req Hv Hnone. by_fields.
    rewrite Hnone in Hv.
    destruct (field validate_str _ _) as [qy|]; [|done].
    destruct (field (validate_list validate_str) _ _) as [cs|]; [|done].
    simpl in Hv. by injection Hv as <-.
  - intros ts. by_fields.
    rewrite lookup_singleton_eq, !lookup_singleton_ne by done.
    cbn [field]. rewrite validate_list_str. done.
  - intros qy cs. by_fields.
    rewrite lookup_insert_eq, (lookup_insert_ne _ "query" "candidates") by done.
    rewrite lookup_singleton_eq.
    rewrite (lookup_insert_ne _ "query" "batch_size") by done.
    rewrite lookup_singleton_ne by done.
    cbn [field]. rewrite validate_list_str. done.
Qed.

Lemma defaults_applied_witness :
  app_instructor.batch_size reference_runtime.embed_request = Some 32 ∧
  app_reranker.batch_size reference_runtime.rerank_request = Some 32.
Proof.
  destruct (@defaults_applied reference_runtime.strict_pydantic)
    as (Hembed & Hrerank & _ & _).
  split.
  - eapply (Hembed {[ "texts" := JArr [JStr "a"; JStr "b"] ]}); reflexivity.
  - eapply (Hrerank {[ "query" := JStr "q";
                       "candidates" := JArr [JStr "x"; JStr "y"; JStr "z"] ]});
      reflexivity.
Defined.

(** ** Health check and the device *)

Section Serve.
Context {Rq Rs P : Type} (app : Rq → P → Rs * P) (I : P → Prop).
Hypothesis app_keeps : ∀ rq p, I p → I (app rq p).2.

(** What every handler keeps, a run of requests keeps. *)
Lemma serve_keeps rqs p : I p → I (serve app rqs p).2.
Proof.
  revert p. induction rqs as [|rq rqs IH]; intros p Hp; simpl; [done|].
  destruct (app rq p) as [r p'] eqn:Happ.
  destruct (serve app rqs p') as [rs p''] eqn:Hserve. simpl.
  change p'' with (rs, p'').2. rewrite <- Hserve. apply IH.
  change p' with (r, p').2. rewrite <- Happ. by apply app_keeps.
Qed.

(** The i-th answer is the answer of the application to the i-th request,
    in a process that still has what every handler keeps. *)
Lemma serve_lookup rqs p i rq :
  I p → rqs !! i = Some rq →
  ∃ p_i, I p_i ∧ (serve app rqs p).1 !! i = Some (app rq p_i).1.
Proof.
  revert p i. induction rqs as [|rq' rqs IH]; intros p i Hp Hi; [done|].
  simpl. destruct (app rq' p) as [r p'] eqn:Happ.
  destruct (serve app rqs p') as [rs p''] eqn:Hserve. simpl.
  destruct i as [|i]; simpl in Hi.
  - injection Hi as ->. exists p. by rewrite Happ.
  - destruct (IH p' i) as (p_i & Hp_i & Hlook); [|done|].
    + change p' with (r, p').2. rewrite <- Happ. by apply app_keeps.
    + exists p_i. split; [done|]. by rewrite Hserve in Hlook.
Qed.

End Serve.

Section Health.
Context `{pydantic}.

Lemma instructor_keeps_device d rq (p : app_instructor.app_process) :
  device p = d → device (app_instructor.app rq p).2 = d.
Proof.
  intros Hd. destruct rq as [|body]; simpl.
  - done.
  - unfold app_instructor.post_embed, route_post.
    destruct (app_instructor.validate_EmbedRequest body) as [req|]; [|done].
    rewrite embed_run. simpl. by destruct (encode _ _ _ _ _ _).
Qed.

Lemma reranker_keeps_device d rq (q : app_reranker.app_process) :
  device q = d → device (app_reranker.app rq q).2 = d.
Proof.
  intros Hd. destruct rq as [|body]; simpl.
  - done.
  - unfold app_reranker.post_rerank, route_post.
    destruct (app_reranker.validate_RerankRequest body) as [req|]; [|done].
    rewrite rerank_run. simpl. by destruct (predict _ _ _).
Qed.

End Health.

(** C6: in a process whose model loaded at startup, the device [d] is the
    one chosen at startup ("cuda" if available, "cpu" otherwise) and stays so
    whatever requests to [/embed] (resp. [/rerank]) and [/healthz] the
    process handles; every [GET /healthz] among them is answered
    [{status: "ok", device: d}], so all of them get the same answer. *)
Theorem healthz_constant `{pydantic} `{torch} `{sentence_transformers} :
  let d := if cuda_is_available then "cuda" else "cpu" in
  let ok : gmap string json := {[ "status" := JStr "ok"; "device" := JStr d ]} in
  (∀ p0 rqs,
     app_instructor.startup = Return p0 →
     device (serve app_instructor.app rqs p0).2 = d ∧
     ∀ i, rqs !! i = Some app_instructor.GET_healthz →
       (serve app_instructor.app rqs p0).1 !! i =
         Some (HTTP_200 (app_instructor.healthz_payload ok))) ∧
  (∀ q0 rqs,
     app_reranker.startup = Return q0 →
     device (serve app_reranker.app rqs q0).2 = d ∧
     ∀ i, rqs !! i = Some app_reranker.GET_healthz →
       (serve app_reranker.app rqs q0).1 !! i =
         Some (HTTP_200 (app_reranker.healthz_payload ok))).
Proof.
  intros d ok. split.
  - intros p0 rqs Hstart.
    assert (device p0 = d) as Hd.
    { unfold app_instructor.startup in Hstart.
      destruct (new_SentenceTransformer _ _); [|done]. by injection Hstart as <-. }
    split.
    + by apply (serve_keeps app_instructor.app (λ p, device p = d)
                  (instructor_keeps_device d)).
    + intros i Hi.
      destruct (serve_lookup app_instructor.app (λ p, device p = d)
                  (instructor_keeps_device d) rqs p0 i _ Hd Hi)
        as (p_i & Hp_i & ->).
      simpl. unfold ok. by rewrite Hp_i.
  - intros q0 rqs Hstart.
    assert (device q0 = d) as Hd.
    { unfold app_reranker.startup in Hstart.
      destruct (new_CrossEncoder _ _); [|done]. by injection Hstart as <-. }
    split.
    + by apply (serve_keeps app_reranker.app (λ q, device q = d)
                  (reranker_keeps_device d)).
    + intros i Hi.
      destruct (serve_lookup app_reranker.app (λ q, device q = d)
                  (reranker_keeps_device d) rqs q0 i _ Hd Hi)
        as (q_i & Hq_i & ->).
      simpl. unfold ok. by rewrite Hq_i.
Qed.

Lemma healthz_constant_witness :
  let ok : gmap string json := {[ "status" := JStr "ok"; "device" := JStr "cuda" ]} in
  (serve (@app_instructor.app reference_runtime.strict_pydantic)
     [app_instructor.GET_healthz;
      app_instructor.POST_embed reference_runtime.embed_body;
      app_instructor.GET_healthz]
     reference_runtime.instructor_process).1 !! 2%nat =
    Some (HTTP_200 (app_instructor.healthz_payload ok)) ∧
  (serve (@app_reranker.app reference_runtime.strict_pydantic)
     [app_reranker.POST_rerank reference_runtime.rerank_body;
      app_reranker.GET_healthz]
     reference_runtime.reranker_process).1 !! 1%nat =
    Some (HTTP_200 (app_reranker.healthz_payload ok)).
Proof.
  destruct (@healthz_constant reference_runtime.strict_pydantic
              reference_runtime.accelerated reference_runtime.models)
    as [Hembed Hrerank].
  split.
  - apply (Hembed reference_runtime.instructor_process); reflexivity.
  - apply (Hrerank reference_runtime.reranker_process); reflexivity.
Defined.

(** ** Batch size and output shape *)

Section BatchSize.
Context `{pydantic}.

Lemma post_embed_200_valid body (p : app_instructor.app_process) resp p' :
  app_instructor.post_embed body p = (HTTP_200 resp, p') →
  is_Some (app_instructor.validate_EmbedRequest body).
Proof.
  destruct (app_instructor.validate_EmbedRequest body) as [req|] eqn:Hv; [done|].
  by rewrite (post_embed_invalid _ _ Hv).
Qed.

Lemma post_rerank_200_valid body (q : app_reranker.app_process) resp q' :
  app_reranker.post_rerank body q = (HTTP_200 resp, q') →
  is_Some (app_reranker.validate_RerankRequest body).
Proof.
  destruct (app_reranker.validate_RerankRequest body) as [req|] eqn:Hv; [done|].
  by rewrite (post_rerank_invalid _ _ Hv).
Qed.

(** Two bodies that agree outside [batch_size] have the same other fields. *)
Lemma lookup_outside_batch_size (m1 m2 : gmap string json) k :
  delete "batch_size" m1 = delete "batch_size" m2 →
  k ≠ "batch_size" → m1 !! k = m2 !! k.
Proof.
  intros Hdel Hk.
  rewrite <- (lookup_delete_ne m1 "batch_size" k) by done.
  rewrite Hdel. by apply lookup_delete_ne.
Qed.

Lemma validate_EmbedRequest_outside_batch_size m1 m2 req1 req2 :
  delete "batch_size" m1 = delete "batch_size" m2 →
  app_instructor.validate_EmbedRequest (JObj m1) = Some req1 →
  app_instructor.validate_EmbedRequest (JObj m2) = Some req2 →
  app_instructor.instruction req1 = app_instructor.instruction req2 ∧
  app_instructor.texts req1 = app_instructor.texts req2 ∧
  app_instructor.normalize req1 = app_instructor.normalize req2.
Proof.
  intros Hdel Hv1 Hv2.
  by_fields.
  rewrite (lookup_outside_batch_size m1 m2 "instruction" Hdel) in Hv1 by done.
  rewrite (lookup_outside_batch_size m1 m2 "texts" Hdel) in Hv1 by done.
  rewrite (lookup_outside_batch_size m1 m2 "normalize" Hdel) in Hv1 by done.
  destruct (field validate_str _ _) as [ins|]; [|done].
  destruct (field (validate_list validate_str) _ _) as [ts|]; [|done].
  destruct (field validate_bool _ _) as [nz|]; [|done].
  simpl in Hv1, Hv2.
  destruct (field _ _ (m1 !! _)); [|done].
  destruct (field _ _ (m2 !! _)); [|done].
  simpl in Hv1, Hv2. injection Hv1 as <-. by injection Hv2 as <-.
Qed.

Lemma validate_RerankRequest_outside_batch_size m1 m2 req1 req2 :
  delete "batch_size" m1 = delete "batch_size" m2 →
  app_reranker.validate_RerankRequest (JObj m1) = Some req1 →
  app_reranker.validate_RerankRequest (JObj m2) = Some req2 →
  app_reranker.query req1 = app_reranker.query req2 ∧
  app_reranker.candidates req1 = app_reranker.candidates req2.
Proof.
  intros Hdel Hv1 Hv2.
  by_fields.
  rewrite (lookup_outside_batch_size m1 m2 "query" Hdel) in Hv1 by done.
  rewrite (lookup_outside_batch_size m1 m2 "candidates" Hdel) in Hv1 by done.
  destruct (field validate_str _ _) as [qy|]; [|done].
  destruct (field (validate_list validate_str) _ _) as [cs|]; [|done].
  simpl in Hv1, Hv2.
  destruct (field _ _ (m1 !! _)); [|done].
  destruct (field _ _ (m2 !! _)); [|done].
  simpl in Hv1, Hv2. injection Hv1 as <-. by injection Hv2 as <-.
Qed.

(** The shape of an embedding matrix: the dimension of every row. *)
Lemma rows_dimension {A B : Type} (P : A → list B → Prop) dim ts embs :
  Forall2 (λ t v, P t v ∧ length v = dim) ts embs →
  length <$> embs = replicate (length ts) dim.
Proof.
  induction 1 as [|t v ts embs [_ Hv] _ IH]; [done|].
  rewrite fmap_cons, Hv, IH. done.
Qed.

End BatchSize.

(** C7: two requests to the same endpoint whose bodies differ at most in
    [batch_size], both answered with a response body by processes that hold
    the same model, get responses of the same shape: the same number of
    embeddings, with the same dimension row by row, for [/embed]; the same
    number of scores for [/rerank]. *)
Theorem batch_size_keeps_shape `{pydantic} :
  (∀ embeds dim m1 m2 (p1 p2 : app_instructor.app_process) r1 r2 p1' p2',
     lawful_encoder (model p1) embeds dim →
     model p2 = model p1 →
     delete "batch_size" m1 = delete "batch_size" m2 →
     app_instructor.post_embed (JObj m1) p1 = (HTTP_200 r1, p1') →
     app_instructor.post_embed (JObj m2) p2 = (HTTP_200 r2, p2') →
     length (app_instructor.embeddings r1) = length (app_instructor.embeddings r2) ∧
     length <$> app_instructor.embeddings r1 = length <$> app_instructor.embeddings r2) ∧
  (∀ scores_pair m1 m2 (q1 q2 : app_reranker.app_process) r1 r2 q1' q2',
     lawful_scorer (model q1) scores_pair →
     model q2 = model q1 →
     delete "batch_size" m1 = delete "batch_size" m2 →
     app_reranker.post_rerank (JObj m1) q1 = (HTTP_200 r1, q1') →
     app_reranker.post_rerank (JObj m2) q2 = (HTTP_200 r2, q2') →
     length (app_reranker.scores r1) = length (app_reranker.scores r2)).
Proof.
  split.
  - intros embeds dim m1 m2 p1 p2 r1 r2 p1' p2' Hlaw1 Hmodel Hdel Hpost1 Hpost2.
    assert (lawful_encoder (model p2) embeds dim) as Hlaw2 by by rewrite Hmodel.
    destruct (post_embed_200_valid _ _ _ _ Hpost1) as [req1 Hv1].
    destruct (post_embed_200_valid _ _ _ _ Hpost2) as [req2 Hv2].
    destruct (validate_EmbedRequest_outside_batch_size _ _ _ _ Hdel Hv1 Hv2)
      as (_ & Hts & _).
    pose proof (embed_rows _ _ _ _ _ _ _ Hlaw1 Hv1 Hpost1) as Hrows1.
    pose proof (embed_rows _ _ _ _ _ _ _ Hlaw2 Hv2 Hpost2) as Hrows2.
    split.
    + rewrite <- (Forall2_length _ _ _ Hrows1), <- (Forall2_length _ _ _ Hrows2).
      by rewrite Hts.
    + rewrite (rows_dimension _ _ _ _ Hrows1), (rows_dimension _ _ _ _ Hrows2).
      by rewrite Hts.
  - intros scores_pair m1 m2 q1 q2 r1 r2 q1' q2' Hlaw1 Hmodel Hdel Hpost1 Hpost2.
    assert (lawful_scorer (model q2) scores_pair) as Hlaw2 by by rewrite Hmodel.
    destruct (post_rerank_200_valid _ _ _ _ Hpost1) as [req1 Hv1].
    destruct (post_rerank_200_valid _ _ _ _ Hpost2) as [req2 Hv2].
    destruct (validate_RerankRequest_outside_batch_size _ _ _ _ Hdel Hv1 Hv2)
      as (_ & Hcs).
    pose proof (rerank_rows _ _ _ _ _ _ Hlaw1 Hv1 Hpost1) as Hrows1.
    pose proof (rerank_rows _ _ _ _ _ _ Hlaw2 Hv2 Hpost2) as Hrows2.
    rewrite <- (Forall2_length _ _ _ Hrows1), <- (Forall2_length _ _ _ Hrows2).
    by rewrite Hcs.
Qed.

Lemma batch_size_keeps_shape_witness :
  let with_32 : gmap string json := {[ "texts" := JArr [JStr "a"; JStr "b"] ]} in
  let with_1 : gmap string json :=
    {[ "texts" := JArr [JStr "a"; JStr "b"]; "batch_size" := JInt 1 ]} in
  ∃ r1 r2,
    (@app_instructor.post_embed reference_runtime.strict_pydantic (JObj with_32)
       reference_runtime.instructor_process).1 = HTTP_200 r1 ∧
    (@app_instructor.post_embed reference_runtime.strict_pydantic (JObj with_1)
       reference_runtime.instructor_process).1 = HTTP_200 r2 ∧
    length <$> app_instructor.embeddings r1 = length <$> app_instructor.embeddings r2.
Proof.
  intros with_32 with_1.
  destruct (@batch_size_keeps_shape reference_runtime.strict_pydantic)
    as [Hembed _].
  eexists _, _. split; [reflexivity|]. split; [reflexivity|].
  eapply (Hembed reference_runtime.embeds 2%nat with_32 with_1
            reference_runtime.instructor_process
            reference_runtime.instructor_process).
  - exact encoder_lawful.
  - reflexivity.
  - reflexivity.
  - reflexivity.
  - reflexivity.
Defined.

(** ** Empty lists and a null batch size *)

Section EdgeCases.
Context `{pydantic}.

(** Replacing [texts] by the empty array in a valid body leaves it valid. *)
Lemma validate_EmbedRequest_empty_texts m req :
  app_instructor.validate_EmbedRequest (JObj m) = Some req →
  app_instructor.validate_EmbedRequest (JObj (<["texts" := JArr []]> m)) =
  Some {| app_instructor.instruction := app_instructor.instruction req;
          app_instructor.texts := [];
          app_instructor.normalize := app_instructor.normalize req;
          app_instructor.batch_size := app_instructor.batch_size req |}.
Proof.
  intros Hv. by_fields.
  rewrite lookup_insert_eq, !lookup_insert_ne by done.
  destruct (field validate_str _ _) as [ins|]; [|done].
  destruct (field (validate_list validate_str) _ _) as [ts|]; [|done].
  destruct (field validate_bool _ _) as [nz|]; [|done].
  destruct (field (validate_optional _) _ _) as [bs|]; [|done].
  simpl in Hv. by injection Hv as <-.
Qed.

Lemma validate_RerankRequest_empty_candidates m req :
  app_reranker.validate_RerankRequest (JObj m) = Some req →
  app_reranker.validate_RerankRequest (JObj (<["candidates" := JArr []]> m)) =
  Some {| app_reranker.query := app_reranker.query req;
          app_reranker.candidates := [];
          app_reranker.batch_size := app_reranker.batch_size req |}.
Proof.
  intros Hv. by_fields.
  rewrite lookup_insert_eq, !lookup_insert_ne by done.
  destruct (field validate_str _ _) as [qy|]; [|done].
  destruct (field (validate_list validate_str) _ _) as [cs|]; [|done].
  destruct (field (validate_optional _) _ _) as [bs|]; [|done].
  simpl in Hv. by injection Hv as <-.
Qed.

(** Setting [batch_size] to [null] in a valid body leaves it valid. *)
Lemma validate_EmbedRequest_null_batch_size m req :
  app_instructor.validate_EmbedRequest (JObj m) = Some req →
  app_instructor.validate_EmbedRequest (JObj (<["batch_size" := JNull]> m)) =
  Some {| app_instructor.instruction := app_instructor.instruction req;
          app_instructor.texts := app_instructor.texts req;
          app_instructor.normalize := app_instructor.normalize req;
          app_instructor.batch_size := None |}.
Proof.
  intros Hv. by_fields.
  rewrite lookup_insert_eq, !lookup_insert_ne by done.
  rewrite batch_size_null.
  destruct (field validate_str _ _) as [ins|]; [|done].
  destruct (field (validate_list validate_str) _ _) as [ts|]; [|done].
  destruct (field validate_bool _ _) as [nz|]; [|done].
  destruct (field (validate_optional _) _ _) as [bs|]; [|done].
  simpl in Hv. by injection Hv as <-.
Qed.

Lemma validate_RerankRequest_null_batch_size m req :
  app_reranker.validate_RerankRequest (JObj m) = Some req →
  app_reranker.validate_RerankRequest (JObj (<["batch_size" := JNull]> m)) =
  Some {| app_reranker.query := app_reranker.query req;
          app_reranker.candidates := app_reranker.candidates req;
          app_reranker.batch_size := None |}.
Proof.
  intros Hv. by_fields.
  rewrite lookup_insert_eq, !lookup_insert_ne by done.
  rewrite batch_size_null.
  destruct (field validate_str _ _) as [qy|]; [|done].
  destruct (field (validate_list validate_str) _ _) as [cs|]; [|done].
  destruct (field (validate_optional _) _ _) as [bs|]; [|done].
  simpl in Hv. by injection Hv as <-.
Qed.

End EdgeCases.

(** The server-error path: both bodies validate, the reference models raise
    on the [null] batch size they are handed, and the answer is 500. *)
Example null_batch_size_server_error :
  (@app_instructor.post_embed reference_runtime.strict_pydantic
     (JObj {[ "texts" := JArr [JStr "a"; JStr "b"]; "batch_size" := JNull ]})
     reference_runtime.instructor_process).1 = HTTP_500 ∧
  (@app_reranker.post_rerank reference_runtime.strict_pydantic
     (JObj {[ "query" := JStr "q"; "candidates" := JArr [JStr "x"];
              "batch_size" := JNull ]})
     reference_runtime.reranker_process).1 = HTTP_500.
Proof. split; reflexivity. Qed.

(** C9: an empty input list is accepted.  Replacing [texts] (resp.
    [candidates]) by [[]] in a valid body gives a body that is not answered
    with the client error 422; the model is called on the empty list, and
    whenever that call returns, the answer is a response whose [embeddings]
    (resp. [scores]) list is empty. *)
Theorem empty_input_accepted `{pydantic} :
  (∀ embeds dim m req (p : app_instructor.app_process),
     lawful_encoder (model p) embeds dim →
     app_instructor.validate_EmbedRequest (JObj m) = Some req →
     let answer := (app_instructor.post_embed (JObj (<["texts" := JArr []]> m)) p).1 in
     answer ≠ HTTP_422 ∧
     (∀ resp, answer = HTTP_200 resp → app_instructor.embeddings resp = []) ∧
     (∀ out,
        encode (model p) [] true (app_instructor.normalize req)
          (app_instructor.batch_size req) false = Return out →
        answer = HTTP_200 {| app_instructor.embeddings := [] |})) ∧
  (∀ scores_pair m req (q : app_reranker.app_process),
     lawful_scorer (model q) scores_pair →
     app_reranker.validate_RerankRequest (JObj m) = Some req →
     let answer := (app_reranker.post_rerank (JObj (<["candidates" := JArr []]> m)) q).1 in
     answer ≠ HTTP_422 ∧
     (∀ resp, answer = HTTP_200 resp → app_reranker.scores resp = []) ∧
     (∀ out,
        predict (model q) [] (app_reranker.batch_size req) = Return out →
        answer = HTTP_200 {| app_reranker.scores := [] |})).
Proof.
  split.
  - intros embeds dim m req p [Hrows _] Hv answer. subst answer.
    rewrite (post_embed_valid _ _ _ (validate_EmbedRequest_empty_texts _ _ Hv)).
    simpl.
    destruct (encode _ _ _ _ _ _) as [embs|e] eqn:Henc.
    + apply Hrows in Henc; [|by eapply validate_EmbedRequest_accepted].
      apply Forall2_nil_inv_l in Henc as ->.
      split; [done|]. split; [by intros resp [= <-]|done].
    + split; [done|]. split; done.
  - intros scores_pair m req q Hlaw Hv answer. subst answer.
    rewrite (post_rerank_valid _ _ _ (validate_RerankRequest_empty_candidates _ _ Hv)).
    simpl.
    destruct (predict _ _ _) as [out|e] eqn:Hpred.
    + apply Hlaw in Hpred; [|by eapply validate_RerankRequest_accepted].
      apply Forall2_nil_inv_l in Hpred as ->.
      split; [done|]. split; [by intros resp [= <-]|done].
    + split; [done|]. split; done.
Qed.

Lemma empty_input_accepted_witness :
  (@app_instructor.post_embed reference_runtime.strict_pydantic
     (JObj (<["texts" := JArr []]> {[ "texts" := JArr [JStr "a"; JStr "b"] ]}))
     reference_runtime.instructor_process).1
  = HTTP_200 {| app_instructor.embeddings := [] |} ∧
  (@app_reranker.post_rerank reference_runtime.strict_pydantic
     (JObj (<["candidates" := JArr []]>
              {[ "query" := JStr "q";
                 "candidates" := JArr [JStr "x"; JStr "y"; JStr "z"] ]}))
     reference_runtime.reranker_process).1
  = HTTP_200 {| app_reranker.scores := [] |}.
Proof.
  destruct (@empty_input_accepted reference_runtime.strict_pydantic)
    as [Hembed Hrerank].
  split.
  - eapply (Hembed reference_runtime.embeds 2%nat
              {[ "texts" := JArr [JStr "a"; JStr "b"] ]}
              reference_runtime.embed_request
              reference_runtime.instructor_process encoder_lawful);
      reflexivity.
  - eapply (Hrerank reference_runtime.scores_pair
              {[ "query" := JStr "q";
                 "candidates" := JArr [JStr "x"; JStr "y"; JStr "z"] ]}
              reference_runtime.rerank_request
              reference_runtime.reranker_process scorer_lawful);
      reflexivity.
Defined.

(** C10: an explicit [batch_size] of [null] is accepted by validation on both
    endpoints: setting it in a valid body gives a body that is not answered
    with the client error 422, and the single call made to the model carries
    [None] as its batch size. *)
Theorem null_batch_size_forwarded `{pydantic} :
  (∀ m req (p : app_instructor.app_process),
     app_instructor.validate_EmbedRequest (JObj m) = Some req →
     let body := JObj (<["batch_size" := JNull]> m) in
     (∃ req', app_instructor.validate_EmbedRequest body = Some req' ∧
              app_instructor.batch_size req' = None) ∧
     (app_instructor.post_embed body p).1 ≠ HTTP_422 ∧
     calls (app_instructor.post_embed body p).2 =
       calls p ++
       [app_instructor.Encode
          ((λ t, [app_instructor.instruction req; t]) <$> app_instructor.texts req)
          true (app_instructor.normalize req) None false]) ∧
  (∀ m req (q : app_reranker.app_process),
     app_reranker.validate_RerankRequest (JObj m) = Some req →
     let body := JObj (<["batch_size" := JNull]> m) in
     (∃ req', app_reranker.validate_RerankRequest body = Some req' ∧
              app_reranker.batch_size req' = None) ∧
     (app_reranker.post_rerank body q).1 ≠ HTTP_422 ∧
     calls (app_reranker.post_rerank body q).2 =
       calls q ++
       [app_reranker.Predict
          ((λ c, (app_reranker.query req, c)) <$> app_reranker.candidates req)
          None]).
Proof.
  split.
  - intros m req p Hv body. subst body.
    pose proof (validate_EmbedRequest_null_batch_size _ _ Hv) as Hv'.
    split; [eauto|].
    rewrite (post_embed_valid _ _ _ Hv'). simpl.
    split; [by destruct (encode _ _ _ _ _ _)|done].
  - intros m req q Hv body. subst body.
    pose proof (validate_RerankRequest_null_batch_size _ _ Hv) as Hv'.
    split; [eauto|].
    rewrite (post_rerank_valid _ _ _ Hv'). simpl.
    split; [by destruct (predict _ _ _)|done].
Qed.

Lemma null_batch_size_forwarded_witness :
  calls (@app_instructor.post_embed reference_runtime.strict_pydantic
           (JObj (<["batch_size" := JNull]> {[ "texts" := JArr [JStr "a"; JStr "b"] ]}))
           reference_runtime.instructor_process).2 =
    [app_instructor.Encode
       [["Represent the document for retrieval: "; "a"];
        ["Represent the document for retrieval: "; "b"]] true true None false] ∧
  calls (@app_reranker.post_rerank reference_runtime.strict_pydantic
           (JObj (<["batch_size" := JNull]>
                    {[ "query" := JStr "q";
                       "candidates" := JArr [JStr "x"; JStr "y"; JStr "z"] ]}))
           reference_runtime.reranker_process).2 =
    [app_reranker.Predict [("q", "x"); ("q", "y"); ("q", "z")] None].
Proof.
  destruct (@null_batch_size_forwarded reference_runtime.strict_pydantic)
    as [Hembed Hrerank].
  split.
  - eapply (Hembed {[ "texts" := JArr [JStr "a"; JStr "b"] ]}
              reference_runtime.embed_request
              reference_runtime.instructor_process).
    reflexivity.
  - eapply (Hrerank {[ "query" := JStr "q";
                       "candidates" := JArr [JStr "x"; JStr "y"; JStr "z"] ]}
              reference_runtime.rerank_request
              reference_runtime.reranker_process).
    reflexivity.
Defined.

(** * Further properties of the two applications *)

(** ** What one request does to the process *)

Section Effect.
Context `{pydantic}.

(** A request leaves [device] and [model] alone and appends to the log the
    one model call of a validated POST, nothing otherwise. *)
Lemma instructor_app_effect rq (p : app_instructor.app_process) :
  (app_instructor.app rq p).2 =
  {| device := device p; model := model p;
     calls := calls p ++
       match rq with
       | app_instructor.GET_healthz => []
       | app_instructor.POST_embed body =>
           match app_instructor.validate_EmbedRequest body with
           | Some req =>
               [app_instructor.Encode
                  ((λ t, [app_instructor.instruction req; t]) <$> app_instructor.texts req)
                  true (app_instructor.normalize req)
                  (app_instructor.batch_size req) false]
           | None => []
           end
       end |}.
Proof.
  destruct rq as [|body]; simpl.
  - destruct p. simpl. by rewrite app_nil_r.
  - destruct (app_instructor.validate_EmbedRequest body) as [req|] eqn:Hv.
    + by rewrite (post_embed_valid _ _ _ Hv).
    + rewrite (post_embed_invalid _ _ Hv). destruct p. simpl. by rewrite app_nil_r.
Qed.

Lemma reranker_app_effect rq (q : app_reranker.app_process) :
  (app_reranker.app rq q).2 =
  {| device := device q; model := model q;
     calls := calls q ++
       match rq with
       | app_reranker.GET_healthz => []
       | app_reranker.POST_rerank body =>
           match app_reranker.validate_RerankRequest body with
           | Some req =>
               [app_reranker.Predict
                  ((λ c, (app_reranker.query req, c)) <$> app_reranker.candidates req)
                  (app_reranker.batch_size req)]
           | None => []
           end
       end |}.
Proof.
  destruct rq as [|body]; simpl.
  - destruct q. simpl. by rewrite app_nil_r.
  - destruct (app_reranker.validate_RerankRequest body) as [req|] eqn:Hv.
    + by rewrite (post_rerank_valid _ _ _ Hv).
    + rewrite (post_rerank_invalid _ _ Hv). destruct q. simpl. by rewrite app_nil_r.
Qed.

Lemma instructor_keeps_globals (p0 : app_instructor.app_process) rq p :
  model p = model p0 ∧ device p = device p0 →
  model (app_instructor.app rq p).2 = model p0 ∧
  device (app_instructor.app rq p).2 = device p0.
Proof. by rewrite instructor_app_effect. Qed.

Lemma reranker_keeps_globals (q0 : app_reranker.app_process) rq q :
  model q = model q0 ∧ device q = device q0 →
  model (app_reranker.app rq q).2 = model q0 ∧
  device (app_reranker.app rq q).2 = device q0.
Proof. by rewrite reranker_app_effect. Qed.

End Effect.

(** X1: the loaded model is read-only.  Whatever requests a process handles,
    it ends with the very model (and device) it started with, in both
    applications. *)
Theorem model_read_only `{pydantic} :
  (∀ rqs (p : app_instructor.app_process),
     model (serve app_instructor.app rqs p).2 = model p ∧
     device (serve app_instructor.app rqs p).2 = device p) ∧
  (∀ rqs (q : app_reranker.app_process),
     model (serve app_reranker.app rqs q).2 = model q ∧
     device (serve app_reranker.app rqs q).2 = device q).
Proof.
  split.
  - intros rqs p.
    by apply (serve_keeps app_instructor.app
                (λ p', model p' = model p ∧ device p' = device p)
                (instructor_keeps_globals p)).
  - intros rqs q.
    by apply (serve_keeps app_reranker.app
                (λ q', model q' = model q ∧ device q' = device q)
                (reranker_keeps_globals q)).
Qed.

(** ** The log of model calls *)

Lemma serve_cons_state {Rq Rs P : Type} (app : Rq → P → Rs * P) rq rqs p :
  (serve app (rq :: rqs) p).2 = (serve app rqs (app rq p).2).2.
Proof.
  simpl. destruct (app rq p) as [r p']. simpl.
  by destruct (serve app rqs p').
Qed.

(** When every request appends a list of calls that depends on the request
    alone, a run appends these lists one after the other. *)
Lemma serve_calls {Rq Rs M C : Type}
    (app : Rq → process M C → Rs * process M C) (new : Rq → list C) :
  (∀ rq p, calls (app rq p).2 = calls p ++ new rq) →
  ∀ rqs p, calls (serve app rqs p).2 = calls p ++ concat (new <$> rqs).
Proof.
  intros Happ rqs. induction rqs as [|rq rqs IH]; intros p.
  - simpl. by rewrite app_nil_r.
  - rewrite serve_cons_state, IH, Happ, fmap_cons. simpl.
    by rewrite <- app_assoc.
Qed.

(** X2: one inference per valid request.  Serving a sequence of requests
    appends to the log exactly one model call for each POST whose body
    validates, in the order of the requests, built from that request's
    fields; a health check or a rejected body adds nothing. *)
Theorem one_inference_per_valid_request `{pydantic} :
  (∀ rqs (p : app_instructor.app_process),
     calls (serve app_instructor.app rqs p).2 =
     calls p ++
     omap (λ rq,
             match rq with
             | app_instructor.GET_healthz => None
             | app_instructor.POST_embed body =>
                 (λ req,
                    app_instructor.Encode
                      ((λ t, [app_instructor.instruction req; t])
                         <$> app_instructor.texts req)
                      true (app_instructor.normalize req)
                      (app_instructor.batch_size req) false)
                 <$> app_instructor.validate_EmbedRequest body
             end) rqs) ∧
  (∀ rqs (q : app_reranker.app_process),
     calls (serve app_reranker.app rqs q).2 =
     calls q ++
     omap (λ rq,
             match rq with
             | app_reranker.GET_healthz => None
             | app_reranker.POST_rerank body =>
                 (λ req,
                    app_reranker.Predict
                      ((λ c, (app_reranker.query req, c))
                         <$> app_reranker.candidates req)
                      (app_reranker.batch_size req))
                 <$> app_reranker.validate_RerankRequest body
             end) rqs).
Proof.
  split.
  - intros rqs p.
    rewrite (serve_calls app_instructor.app _
               (λ rq p', f_equal calls (instructor_app_effect rq p'))).
    f_equal. induction rqs as [|rq rqs IH]; [done|].
    rewrite fmap_cons. simpl. rewrite IH.
    destruct rq as [|body]; [done|].
    by destruct (app_instructor.validate_EmbedRequest body).
  - intros rqs q.
    rewrite (serve_calls app_reranker.app _
               (λ rq q', f_equal calls (reranker_app_effect rq q'))).
    f_equal. induction rqs as [|rq rqs IH]; [done|].
    rewrite fmap_cons. simpl. rewrite IH.
    destruct rq as [|body]; [done|].
    by destruct (app_reranker.validate_RerankRequest body).
Qed.

(** X4: the model is only ever called with arguments the schemas vouch for.
    In a run of either application every logged call carries a batch size
    that is [None] or at least 1; every call to the encoder has
    [convert_to_numpy=True] and [show_progress_bar=False] and its sentences
    are two-element lists that share their first element (the instruction);
    the pairs of a call to the cross-encoder share their first component
    (the query). *)
Theorem model_calls_well_formed `{pydantic} :
  let encode_ok (c : app_instructor.encode_call) :=
    match c with
    | app_instructor.Encode sentences cn nz bs pb =>
        cn = true ∧ pb = false ∧ accepted_batch_size bs ∧
        ∃ ins, Forall (λ s, ∃ t, s = [ins; t]) sentences
    end in
  let predict_ok (c : app_reranker.predict_call) :=
    match c with
    | app_reranker.Predict pairs bs =>
        accepted_batch_size bs ∧ ∃ qy, Forall (λ pr, pr.1 = qy) pairs
    end in
  (∀ rqs (p : app_instructor.app_process),
     Forall encode_ok (calls p) →
     Forall encode_ok (calls (serve app_instructor.app rqs p).2)) ∧
  (∀ rqs (q : app_reranker.app_process),
     Forall predict_ok (calls q) →
     Forall predict_ok (calls (serve app_reranker.app rqs q).2)).
Proof.
  intros encode_ok predict_ok. split.
  - intros rqs p.
    apply (serve_keeps app_instructor.app (λ p', Forall encode_ok (calls p'))).
    clear p. intros rq p Hp. rewrite instructor_app_effect. simpl.
    apply Forall_app. split; [done|].
    destruct rq as [|body]; [done|].
    destruct (app_instructor.validate_EmbedRequest body) as [req|] eqn:Hv; [|done].
    apply Forall_singleton. repeat split.
    + by eapply validate_EmbedRequest_accepted.
    + exists (app_instructor.instruction req).
      apply Forall_fmap, Forall_forall. intros t _. by exists t.
  - intros rqs q.
    apply (serve_keeps app_reranker.app (λ q', Forall predict_ok (calls q'))).
    clear q. intros rq q Hq. rewrite reranker_app_effect. simpl.
    apply Forall_app. split; [done|].
    destruct rq as [|body]; [done|].
    destruct (app_reranker.validate_RerankRequest body) as [req|] eqn:Hv; [|done].
    apply Forall_singleton. split.
    + by eapply validate_RerankRequest_accepted.
    + exists (app_reranker.query req).
      apply Forall_fmap, Forall_forall. by intros c _.
Qed.

Lemma model_calls_well_formed_witness :
  Forall (λ c, match c with
               | app_instructor.Encode _ _ _ bs _ => accepted_batch_size bs
               end)
    (calls (serve (@app_instructor.app reference_runtime.strict_pydantic)
              [app_instructor.POST_embed reference_runtime.embed_body;
               app_instructor.POST_embed
                 (JObj {[ "texts" := JArr []; "batch_size" := JInt (-4) ]})]
              reference_runtime.instructor_process).2) ∧
  Forall (λ c, match c with
               | app_reranker.Predict _ bs => accepted_batch_size bs
               end)
    (calls (serve (@app_reranker.app reference_runtime.strict_pydantic)
              [app_reranker.POST_rerank reference_runtime.rerank_body]
              reference_runtime.reranker_process).2).
Proof.
  destruct (@model_calls_well_formed reference_runtime.strict_pydantic)
    as [Hembed Hrerank].
  split.
  - eapply Forall_impl; [apply Hembed; by apply Forall_nil|].
    intros [ss cn nz bs pb] (_ & _ & Hbs & _). exact Hbs.
  - eapply Forall_impl; [apply Hrerank; by apply Forall_nil|].
    intros [pairs bs] [Hbs _]. exact Hbs.
Defined.

(** ** Validation, field by field *)

Section Fields.
Context `{pydantic}.

(** An object validates as an EmbedRequest exactly when each of the four
    fields validates, and the request holds the four results. *)
Lemma EmbedRequest_fields_Some m req :
  app_instructor.validate_EmbedRequest (JObj m) = Some req ↔
  field validate_str (Default "Represent the document for retrieval: ")
    (m !! "instruction") = Some (app_instructor.instruction req) ∧
  field (validate_list validate_str) Required (m !! "texts")
    = Some (app_instructor.texts req) ∧
  field validate_bool (Default true) (m !! "normalize")
    = Some (app_instructor.normalize req) ∧
  field (validate_optional (validate_int (Some 1))) (Default (Some 32))
    (m !! "batch_size") = Some (app_instructor.batch_size req).
Proof.
  by_fields. split.
  - intros Hv.
    destruct (field validate_str _ _) as [ins|]; [|done].
    destruct (field (validate_list validate_str) _ _) as [ts|]; [|done].
    destruct (field validate_bool _ _) as [nz|]; [|done].
    destruct (field (validate_optional _) _ _) as [bs|]; [|done].
    simpl in Hv. by injection Hv as <-.
  - intros (-> & -> & -> & ->). by destruct req.
Qed.

Lemma RerankRequest_fields_Some m req :
  app_reranker.validate_RerankRequest (JObj m) = Some req ↔
  field validate_str Required (m !! "query") = Some (app_reranker.query req) ∧
  field (validate_list validate_str) Required (m !! "candidates")
    = Some (app_reranker.candidates req) ∧
  field (validate_optional (validate_int (Some 1))) (Default (Some 32))
    (m !! "batch_size") = Some (app_reranker.batch_size req).
Proof.
  by_fields. split.
  - intros Hv.
    destruct (field validate_str _ _) as [qy|]; [|done].
    destruct (field (validate_list validate_str) _ _) as [cs|]; [|done].
    destruct (field (validate_optional _) _ _) as [bs|]; [|done].
    simpl in Hv. by injection Hv as <-.
  - intros (-> & -> & ->). by destruct req.
Qed.

(** Validation only looks at the members named after the fields. *)
Lemma validate_EmbedRequest_ext m1 m2 :
  m1 !! "instruction" = m2 !! "instruction" →
  m1 !! "texts" = m2 !! "texts" →
  m1 !! "normalize" = m2 !! "normalize" →
  m1 !! "batch_size" = m2 !! "batch_size" →
  app_instructor.validate_EmbedRequest (JObj m1) =
  app_instructor.validate_EmbedRequest (JObj m2).
Proof. by_fields. by intros -> -> -> ->. Qed.

Lemma validate_RerankRequest_ext m1 m2 :
  m1 !! "query" = m2 !! "query" →
  m1 !! "candidates" = m2 !! "candidates" →
  m1 !! "batch_size" = m2 !! "batch_size" →
  app_reranker.validate_RerankRequest (JObj m1) =
  app_reranker.validate_RerankRequest (JObj m2).
Proof. by_fields. by intros -> -> ->. Qed.

(** A list field refuses what is not an array, and an array with an item
    that does not validate. *)
Lemma list_field_not_array j :
  (∀ l, j ≠ JArr l) →
  field (validate_list validate_str) Required (Some j) = None.
Proof. intros Hj. destruct j; try done. by destruct (Hj l). Qed.

Lemma list_field_bad_item l j :
  j ∈ l → validate_str j = None →
  field (validate_list validate_str) Required (Some (JArr l)) = None.
Proof.
  intros Hj Hbad. simpl. apply mapM_None, Exists_exists. eauto.
Qed.

(** A list field keeps one item per item of the array. *)
Lemma list_field_length l ts :
  field (validate_list validate_str) Required (Some (JArr l)) = Some ts →
  length ts = length l.
Proof. simpl. intros Hts. symmetry. by eapply length_mapM. Qed.

(** An integer of at least 1 validates as itself. *)
Lemma batch_size_at_least_one z :
  1 ≤ z →
  field (validate_optional (validate_int (Some 1))) (Default (Some 32))
    (Some (JInt z)) = Some (Some z).
Proof.
  intros Hz. simpl. unfold validate_int. simpl.
  by rewrite bool_decide_eq_true_2.
Qed.

End Fields.

(** X6: a list field of the wrong kind is a client error.  When [texts]
    (for [/embed]) or [candidates] (for [/rerank]) is present but is not a
    JSON array ([null], a string, a number, an object, ...), the request is
    answered 422 and the process is left as it was, whatever the other
    members of the body. *)
Theorem list_of_wrong_kind_rejected `{pydantic} :
  (∀ m j (p : app_instructor.app_process),
     m !! "texts" = Some j → (∀ l, j ≠ JArr l) →
     app_instructor.post_embed (JObj m) p = (HTTP_422, p)) ∧
  (∀ m j (q : app_reranker.app_process),
     m !! "candidates" = Some j → (∀ l, j ≠ JArr l) →
     app_reranker.post_rerank (JObj m) q = (HTTP_422, q)).
Proof.
  split.
  - intros m j p Hm Hj. apply post_embed_invalid.
    destruct (app_instructor.validate_EmbedRequest (JObj m)) as [req|] eqn:Hv;
      [|done].
    apply EmbedRequest_fields_Some in Hv as (_ & Hts & _).
    by rewrite Hm, list_field_not_array in Hts.
  - intros m j q Hm Hj. apply post_rerank_invalid.
    destruct (app_reranker.validate_RerankRequest (JObj m)) as [req|] eqn:Hv;
      [|done].
    apply RerankRequest_fields_Some in Hv as (_ & Hcs & _).
    by rewrite Hm, list_field_not_array in Hcs.
Qed.

Lemma list_of_wrong_kind_rejected_witness :
  @app_instructor.post_embed reference_runtime.strict_pydantic
    (JObj {[ "texts" := JStr "a" ]}) reference_runtime.instructor_process
  = (HTTP_422, reference_runtime.instructor_process) ∧
  @app_reranker.post_rerank reference_runtime.strict_pydantic
    (JObj {[ "query" := JStr "q"; "candidates" := JNull ]})
    reference_runtime.reranker_process
  = (HTTP_422, reference_runtime.reranker_process).
Proof.
  destruct (@list_of_wrong_kind_rejected reference_runtime.strict_pydantic)
    as [Hembed Hrerank].
  split.
  - by apply (Hembed _ (JStr "a")).
  - by apply (Hrerank _ JNull).
Defined.

(** X11: validation of a list is all or nothing.  If a single item of
    [texts] (resp. [candidates]) does not validate as a string, the whole
    request is answered 422 and the model is not called, not even on the
    items that do validate. *)
Theorem bad_item_rejects_request `{pydantic} :
  (∀ m l j (p : app_instructor.app_process),
     m !! "texts" = Some (JArr l) → j ∈ l → validate_str j = None →
     app_instructor.post_embed (JObj m) p = (HTTP_422, p)) ∧
  (∀ m l j (q : app_reranker.app_process),
     m !! "candidates" = Some (JArr l) → j ∈ l → validate_str j = None →
     app_reranker.post_rerank (JObj m) q = (HTTP_422, q)).
Proof.
  split.
  - intros m l j p Hm Hj Hbad. apply post_embed_invalid.
    destruct (app_instructor.validate_EmbedRequest (JObj m)) as [req|] eqn:Hv;
      [|done].
    apply EmbedRequest_fields_Some in Hv as (_ & Hts & _).
    by rewrite Hm, (list_field_bad_item l j) in Hts.
  - intros m l j q Hm Hj Hbad. apply post_rerank_invalid.
    destruct (app_reranker.validate_RerankRequest (JObj m)) as [req|] eqn:Hv;
      [|done].
    apply RerankRequest_fields_Some in Hv as (_ & Hcs & _).
    by rewrite Hm, (list_field_bad_item l j) in Hcs.
Qed.

Lemma bad_item_rejects_request_witness :
  @app_instructor.post_embed reference_runtime.strict_pydantic
    (JObj {[ "texts" := JArr [JStr "a"; JNull; JStr "b"] ]})
    reference_runtime.instructor_process
  = (HTTP_422, reference_runtime.instructor_process) ∧
  @app_reranker.post_rerank reference_runtime.strict_pydantic
    (JObj {[ "query" := JStr "q"; "candidates" := JArr [JStr "x"; JArr []] ]})
    reference_runtime.reranker_process
  = (HTTP_422, reference_runtime.reranker_process).
Proof.
  destruct (@bad_item_rejects_request reference_runtime.strict_pydantic)
    as [Hembed Hrerank].
  split.
  - apply (Hembed _ [JStr "a"; JNull; JStr "b"] JNull); [done| |done].
    apply list_elem_of_lookup. by exists 1%nat.
  - apply (Hrerank _ [JStr "x"; JArr []] (JArr [])); [done| |done].
    apply list_elem_of_lookup. by exists 1%nat.
Defined.

(** X7: every integer batch size from 1 up is accepted and reaches the model
    unchanged.  Setting [batch_size] to an integer [z ≥ 1] in a valid body
    gives a body that is not answered 422, and the model call carries
    exactly [z]: there is no upper bound and no clamping. *)
Theorem integer_batch_size_forwarded `{pydantic} :
  (∀ m req z (p : app_instructor.app_process),
     app_instructor.validate_EmbedRequest (JObj m) = Some req → 1 ≤ z →
     let body := JObj (<["batch_size" := JInt z]> m) in
     (app_instructor.post_embed body p).1 ≠ HTTP_422 ∧
     calls (app_instructor.post_embed body p).2 =
       calls p ++
       [app_instructor.Encode
          ((λ t, [app_instructor.instruction req; t]) <$> app_instructor.texts req)
          true (app_instructor.normalize req) (Some z) false]) ∧
  (∀ m req z (q : app_reranker.app_process),
     app_reranker.validate_RerankRequest (JObj m) = Some req → 1 ≤ z →
     let body := JObj (<["batch_size" := JInt z]> m) in
     (app_reranker.post_rerank body q).1 ≠ HTTP_422 ∧
     calls (app_reranker.post_rerank body q).2 =
       calls q ++
       [app_reranker.Predict
          ((λ c, (app_reranker.query req, c)) <$> app_reranker.candidates req)
          (Some z)]).
Proof.
  split.
  - intros m req z p Hv Hz body. subst body.
    apply EmbedRequest_fields_Some in Hv as (Hins & Hts & Hnz & _).
    assert (app_instructor.validate_EmbedRequest
              (JObj (<["batch_size" := JInt z]> m)) =
            Some {| app_instructor.instruction := app_instructor.instruction req;
                    app_instructor.texts := app_instructor.texts req;
                    app_instructor.normalize := app_instructor.normalize req;
                    app_instructor.batch_size := Some z |}) as Hv'.
    { apply EmbedRequest_fields_Some. simpl.
      rewrite lookup_insert_eq, !lookup_insert_ne by done.
      by rewrite batch_size_at_least_one. }
    rewrite (post_embed_valid _ _ _ Hv'). simpl.
    split; [by destruct (encode _ _ _ _ _ _)|done].
  - intros m req z q Hv Hz body. subst body.
    apply RerankRequest_fields_Some in Hv as (Hqy & Hcs & _).
    assert (app_reranker.validate_RerankRequest
              (JObj (<["batch_size" := JInt z]> m)) =
            Some {| app_reranker.query := app_reranker.query req;
                    app_reranker.candidates := app_reranker.candidates req;
                    app_reranker.batch_size := Some z |}) as Hv'.
    { apply RerankRequest_fields_Some. simpl.
      rewrite lookup_insert_eq, !lookup_insert_ne by done.
      by rewrite batch_size_at_least_one. }
    rewrite (post_rerank_valid _ _ _ Hv'). simpl.
    split; [by destruct (predict _ _ _)|done].
Qed.

Lemma integer_batch_size_forwarded_witness :
  calls (@app_instructor.post_embed reference_runtime.strict_pydantic
           (JObj (<["batch_size" := JInt 1]> {[ "texts" := JArr [JStr "a"; JStr "b"] ]}))
           reference_runtime.instructor_process).2 =
    [app_instructor.Encode
       [["Represent the document for retrieval: "; "a"];
        ["Represent the document for retrieval: "; "b"]] true true (Some 1) false] ∧
  calls (@app_reranker.post_rerank reference_runtime.strict_pydantic
           (JObj (<["batch_size" := JInt 100000]>
                    {[ "query" := JStr "q";
                       "candidates" := JArr [JStr "x"; JStr "y"; JStr "z"] ]}))
           reference_runtime.reranker_process).2 =
    [app_reranker.Predict [("q", "x"); ("q", "y"); ("q", "z")] (Some 100000)].
Proof.
  destruct (@integer_batch_size_forwarded reference_runtime.strict_pydantic)
    as [Hembed Hrerank].
  split.
  - eapply (Hembed {[ "texts" := JArr [JStr "a"; JStr "b"] ]}
              reference_runtime.embed_request 1
              reference_runtime.instructor_process); [reflexivity|lia].
  - eapply (Hrerank {[ "query" := JStr "q";
                       "candidates" := JArr [JStr "x"; JStr "y"; JStr "z"] ]}
              reference_runtime.rerank_request 100000
              reference_runtime.reranker_process); [reflexivity|lia].
Defined.

(** X8: values of the declared kind are taken as they are.  In a valid
    EmbedRequest body, an array of JSON strings under [texts] becomes the
    same list of strings (same order, repetitions kept, no string altered),
    a JSON string under [instruction] and a JSON boolean under [normalize]
    become themselves; likewise [query] and [candidates] of a RerankRequest. *)
Theorem declared_kind_taken_as_is `{pydantic} :
  (∀ m req,
     app_instructor.validate_EmbedRequest (JObj m) = Some req →
     (∀ ts, m !! "texts" = Some (JArr (JStr <$> ts)) →
            app_instructor.texts req = ts) ∧
     (∀ s, m !! "instruction" = Some (JStr s) →
           app_instructor.instruction req = s) ∧
     (∀ b, m !! "normalize" = Some (JBool b) →
           app_instructor.normalize req = b)) ∧
  (∀ m req,
     app_reranker.validate_RerankRequest (JObj m) = Some req →
     (∀ cs, m !! "candidates" = Some (JArr (JStr <$> cs)) →
            app_reranker.candidates req = cs) ∧
     (∀ s, m !! "query" = Some (JStr s) → app_reranker.query req = s)).
Proof.
  split.
  - intros m req Hv.
    apply EmbedRequest_fields_Some in Hv as (Hins & Hts & Hnz & _).
    split; [|split].
    + intros ts Hm. rewrite Hm in Hts. cbn [field] in Hts.
      rewrite validate_list_str in Hts. congruence.
    + intros s Hm. rewrite Hm in Hins. simpl in Hins. congruence.
    + intros b Hm. rewrite Hm in Hnz. simpl in Hnz. congruence.
  - intros m req Hv.
    apply RerankRequest_fields_Some in Hv as (Hqy & Hcs & _).
    split.
    + intros cs Hm. rewrite Hm in Hcs. cbn [field] in Hcs.
      rewrite validate_list_str in Hcs. congruence.
    + intros s Hm. rewrite Hm in Hqy. simpl in Hqy. congruence.
Qed.

Lemma declared_kind_taken_as_is_witness :
  app_instructor.texts <$>
    @app_instructor.validate_EmbedRequest reference_runtime.strict_pydantic
      (JObj {[ "texts" := JArr (JStr <$> ["b"; "a"; "b"]);
               "normalize" := JBool false ]})
  = Some ["b"; "a"; "b"] ∧
  app_reranker.query <$>
    @app_reranker.validate_RerankRequest reference_runtime.strict_pydantic
      reference_runtime.rerank_body
  = Some "q".
Proof.
  destruct (@declared_kind_taken_as_is reference_runtime.strict_pydantic)
    as [Hembed Hrerank].
  split.
  - destruct (app_instructor.validate_EmbedRequest _) as [req|] eqn:Hv;
      [|vm_compute in Hv; discriminate].
    destruct (Hembed _ req Hv) as (Hts & _ & _).
    simpl. f_equal. by apply Hts.
  - destruct (app_reranker.validate_RerankRequest _) as [req|] eqn:Hv;
      [|vm_compute in Hv; discriminate].
    destruct (Hrerank _ req Hv) as (_ & Hqy).
    simpl. f_equal. by apply Hqy.
Defined.

(** X9: members that are not fields are ignored.  Adding to a body a member
    whose name is not one of the declared field names changes neither the
    validation result nor what the route does, whatever the member's value. *)
Theorem unknown_members_ignored `{pydantic} :
  (∀ m k j (p : app_instructor.app_process),
     k ∉ ["instruction"; "texts"; "normalize"; "batch_size"] →
     app_instructor.validate_EmbedRequest (JObj (<[k := j]> m)) =
       app_instructor.validate_EmbedRequest (JObj m) ∧
     app_instructor.post_embed (JObj (<[k := j]> m)) p =
       app_instructor.post_embed (JObj m) p) ∧
  (∀ m k j (q : app_reranker.app_process),
     k ∉ ["query"; "candidates"; "batch_size"] →
     app_reranker.validate_RerankRequest (JObj (<[k := j]> m)) =
       app_reranker.validate_RerankRequest (JObj m) ∧
     app_reranker.post_rerank (JObj (<[k := j]> m)) q =
       app_reranker.post_rerank (JObj m) q).
Proof.
  split.
  - intros m k j p Hk.
    assert (app_instructor.validate_EmbedRequest (JObj (<[k := j]> m)) =
            app_instructor.validate_EmbedRequest (JObj m)) as Hv.
    { apply validate_EmbedRequest_ext; apply lookup_insert_ne;
        intros ->; apply Hk; set_solver. }
    split; [done|].
    unfold app_instructor.post_embed, route_post. by rewrite Hv.
  - intros m k j q Hk.
    assert (app_reranker.validate_RerankRequest (JObj (<[k := j]> m)) =
            app_reranker.validate_RerankRequest (JObj m)) as Hv.
    { apply validate_RerankRequest_ext; apply lookup_insert_ne;
        intros ->; apply Hk; set_solver. }
    split; [done|].
    unfold app_reranker.post_rerank, route_post. by rewrite Hv.
Qed.

Lemma unknown_members_ignored_witness :
  @app_instructor.validate_EmbedRequest reference_runtime.strict_pydantic
    (JObj (<["text" := JInt 7]> {[ "texts" := JArr [JStr "a"; JStr "b"] ]})) =
  Some reference_runtime.embed_request ∧
  @app_reranker.validate_RerankRequest reference_runtime.strict_pydantic
    (JObj (<["top_k" := JInt 2]>
             {[ "query" := JStr "q";
                "candidates" := JArr [JStr "x"; JStr "y"; JStr "z"] ]})) =
  Some reference_runtime.rerank_request.
Proof.
  destruct (@unknown_members_ignored reference_runtime.strict_pydantic)
    as [Hembed Hrerank].
  split.
  - destruct (Hembed {[ "texts" := JArr [JStr "a"; JStr "b"] ]} "text" (JInt 7)
                reference_runtime.instructor_process) as [-> _]; [|reflexivity].
    rewrite !elem_of_cons, elem_of_nil. intros [?|[?|[?|[?|[]]]]]; discriminate.
  - destruct (Hrerank {[ "query" := JStr "q";
                         "candidates" := JArr [JStr "x"; JStr "y"; JStr "z"] ]}
                "top_k" (JInt 2) reference_runtime.reranker_process)
      as [-> _]; [|reflexivity].
    rewrite !elem_of_cons, elem_of_nil. intros [?|[?|[?|[]]]]; discriminate.
Defined.

(** X12: one output per item of the JSON array.  When a body whose [texts]
    (resp. [candidates]) is a JSON array gets a response from a lawful model,
    the response has as many embeddings (resp. scores) as the array has
    items: no item is dropped, merged or split on the way, whatever
    conversions pydantic applies to the items. *)
Theorem one_output_per_json_item `{pydantic} :
  (∀ embeds dim m l (p : app_instructor.app_process) resp p',
     lawful_encoder (model p) embeds dim →
     m !! "texts" = Some (JArr l) →
     app_instructor.post_embed (JObj m) p = (HTTP_200 resp, p') →
     length (app_instructor.embeddings resp) = length l) ∧
  (∀ scores_pair m l (q : app_reranker.app_process) resp q',
     lawful_scorer (model q) scores_pair →
     m !! "candidates" = Some (JArr l) →
     app_reranker.post_rerank (JObj m) q = (HTTP_200 resp, q') →
     length (app_reranker.scores resp) = length l).
Proof.
  split.
  - intros embeds dim m l p resp p' Hlaw Hm Hpost.
    destruct (post_embed_200_valid _ _ _ _ Hpost) as [req Hv].
    rewrite <- (Forall2_length _ _ _ (embed_rows _ _ _ _ _ _ _ Hlaw Hv Hpost)).
    apply EmbedRequest_fields_Some in Hv as (_ & Hts & _).
    rewrite Hm in Hts. by apply list_field_length.
  - intros scores_pair m l q resp q' Hlaw Hm Hpost.
    destruct (post_rerank_200_valid _ _ _ _ Hpost) as [req Hv].
    rewrite <- (Forall2_length _ _ _ (rerank_rows _ _ _ _ _ _ Hlaw Hv Hpost)).
    apply RerankRequest_fields_Some in Hv as (_ & Hcs & _).
    rewrite Hm in Hcs. by apply list_field_length.
Qed.

Lemma one_output_per_json_item_witness :
  (∃ resp,
     (@app_instructor.post_embed reference_runtime.strict_pydantic
        reference_runtime.embed_body reference_runtime.instructor_process).1
     = HTTP_200 resp ∧
     length (app_instructor.embeddings resp) = length [JStr "a"; JStr "b"]) ∧
  (∃ resp,
     (@app_reranker.post_rerank reference_runtime.strict_pydantic
        reference_runtime.rerank_body reference_runtime.reranker_process).1
     = HTTP_200 resp ∧
     length (app_reranker.scores resp) = length [JStr "x"; JStr "y"; JStr "z"]).
Proof.
  destruct (@one_output_per_json_item reference_runtime.strict_pydantic)
    as [Hembed Hrerank].
  split.
  - eexists. split; [reflexivity|].
    eapply (Hembed reference_runtime.embeds 2%nat
              {[ "texts" := JArr [JStr "a"; JStr "b"] ]} _
              reference_runtime.instructor_process).
    + exact encoder_lawful.
    + reflexivity.
    + reflexivity.
  - eexists. split; [reflexivity|].
    eapply (Hrerank reference_runtime.scores_pair
              {[ "query" := JStr "q";
                 "candidates" := JArr [JStr "x"; JStr "y"; JStr "z"] ]} _
              reference_runtime.reranker_process).
    + exact scorer_lawful.
    + reflexivity.
    + reflexivity.
Defined.

(** ** Startup *)

(** X10: the model in use is the one loaded at startup, from the fixed path
    and onto the device the process reports.  A process exists only if the
    loader returned; it starts with an empty log (nothing is inferred at
    startup), and at any later time its model is what the loader gave for the
    application's path and the process's device.  If the loader raises,
    startup raises the same exception. *)
Theorem model_loaded_on_reported_device
    `{pydantic} `{torch} `{sentence_transformers} :
  (∀ p0 rqs,
     app_instructor.startup = Return p0 →
     calls p0 = [] ∧
     let p := (serve app_instructor.app rqs p0).2 in
     new_SentenceTransformer "/models/hkunlp__instructor-xl" (device p)
       = Return (model p)) ∧
  (∀ q0 rqs,
     app_reranker.startup = Return q0 →
     calls q0 = [] ∧
     let q := (serve app_reranker.app rqs q0).2 in
     new_CrossEncoder "/models/BAAI__bge-reranker-large" (device q)
       = Return (model q)) ∧
  (∀ e,
     (app_instructor.startup = Raise e ↔
      new_SentenceTransformer "/models/hkunlp__instructor-xl"
        (if cuda_is_available then "cuda" else "cpu") = Raise e) ∧
     (app_reranker.startup = Raise e ↔
      new_CrossEncoder "/models/BAAI__bge-reranker-large"
        (if cuda_is_available then "cuda" else "cpu") = Raise e)).
Proof.
  split; [|split].
  - intros p0 rqs Hstart. unfold app_instructor.startup in Hstart.
    destruct (new_SentenceTransformer _ _) as [m|e] eqn:Hload; [|done].
    injection Hstart as <-. split; [done|]. simpl.
    set (p0 := {| device := _; model := m; calls := [] |}).
    destruct (serve_keeps app_instructor.app
                (λ p', model p' = model p0 ∧ device p' = device p0)
                (instructor_keeps_globals p0) rqs p0 (conj eq_refl eq_refl))
      as [-> ->].
    done.
  - intros q0 rqs Hstart. unfold app_reranker.startup in Hstart.
    destruct (new_CrossEncoder _ _) as [m|e] eqn:Hload; [|done].
    injection Hstart as <-. split; [done|]. simpl.
    set (q0 := {| device := _; model := m; calls := [] |}).
    destruct (serve_keeps app_reranker.app
                (λ q', model q' = model q0 ∧ device q' = device q0)
                (reranker_keeps_globals q0) rqs q0 (conj eq_refl eq_refl))
      as [-> ->].
    done.
  - intros e. unfold app_instructor.startup, app_reranker.startup. split.
    + destruct (new_SentenceTransformer _ _); naive_solver.
    + destruct (new_CrossEncoder _ _); naive_solver.
Qed.

Lemma model_loaded_on_reported_device_witness :
  model (serve (@app_instructor.app reference_runtime.strict_pydantic)
           [app_instructor.POST_embed reference_runtime.embed_body]
           reference_runtime.instructor_process).2
  = reference_runtime.encoder ∧
  model (serve (@app_reranker.app reference_runtime.strict_pydantic)
           [app_reranker.POST_rerank reference_runtime.rerank_body]
           reference_runtime.reranker_process).2
  = reference_runtime.scorer.
Proof.
  destruct (@model_loaded_on_reported_device reference_runtime.strict_pydantic
              reference_runtime.accelerated reference_runtime.models)
    as (Hembed & Hrerank & _).
  split.
  - destruct (Hembed reference_runtime.instructor_process
                [app_instructor.POST_embed reference_runtime.embed_body] eq_refl)
      as [_ Hm].
    assert (∀ x y : SentenceTransformer, Return x = Return y → y = x) as Hinj
      by (by intros x y [= ->]).
    exact (Hinj _ _ Hm).
  - destruct (Hrerank reference_runtime.reranker_process
                [app_reranker.POST_rerank reference_runtime.rerank_body] eq_refl)
      as [_ Hm].
    assert (∀ x y : CrossEncoder, Return x = Return y → y = x) as Hinj
      by (by intros x y [= ->]).
    exact (Hinj _ _ Hm).
Defined.

(** ** Normalized embeddings *)

(** The reference encoder normalizes exactly. *)
Lemma encoder_normalizing :
  normalizing_encoder reference_runtime.embeds 0.
Proof. by intros s v ->. Qed.

(** Without normalization its vectors are as long as the text, and a vector
    with a component that is not a number has no length at all. *)
Example unnormalized_vector_not_unit :
  unit_norm_b (1 # 100) (reference_runtime.vector false ["i"; "abc"]) = false ∧
  unit_norm_b (1 # 100) [S754_nan; reference_runtime.one] = false.
Proof. split; reflexivity. Qed.

(** From the rows of a response to each vector in it. *)
Lemma rows_unit_norm {A : Type} (P : A → list float → Prop) tol ts embs :
  (∀ t v, P t v → unit_norm tol v) →
  Forall2 P ts embs → Forall (unit_norm tol) embs.
Proof.
  intros HP. induction 1 as [|t v ts embs Htv _ IH]; constructor; eauto.
Qed.

(** C8: for every valid EmbedRequest with [normalize = true], every vector
    in the returned embeddings has unit L2 norm within the tolerance [tol],
    for a model that, asked to normalize, gives vectors of unit norm within
    [tol]. *)
Theorem normalized_embeddings_unit_norm `{pydantic}
    embeds dim tol body req (p : app_instructor.app_process) resp p' :
  lawful_encoder (model p) embeds dim →
  normalizing_encoder embeds tol →
  app_instructor.validate_EmbedRequest body = Some req →
  app_instructor.normalize req = true →
  app_instructor.post_embed body p = (HTTP_200 resp, p') →
  Forall (unit_norm tol) (app_instructor.embeddings resp).
Proof.
  intros Hlaw Hunit Hv Hnz Hpost.
  pose proof (embed_rows _ _ _ _ _ _ _ Hlaw Hv Hpost) as Hrows.
  rewrite Hnz in Hrows.
  eapply rows_unit_norm; [|exact Hrows].
  intros t v [Hemb _]. by eapply Hunit.
Qed.

Lemma normalized_embeddings_unit_norm_witness :
  Forall (unit_norm 0)
    [[reference_runtime.one; reference_runtime.zero];
     [reference_runtime.one; reference_runtime.zero]].
Proof.
  apply (@normalized_embeddings_unit_norm reference_runtime.strict_pydantic
           reference_runtime.embeds 2%nat 0 reference_runtime.embed_body
           reference_runtime.embed_request reference_runtime.instructor_process
           {| app_instructor.embeddings :=
                [[reference_runtime.one; reference_runtime.zero];
                 [reference_runtime.one; reference_runtime.zero]] |}
           (@app_instructor.post_embed reference_runtime.strict_pydantic
              reference_runtime.embed_body
              reference_runtime.instructor_process).2).
  - exact encoder_lawful.
  - exact encoder_normalizing.
  - reflexivity.
  - reflexivity.
  - reflexivity.
Defined.
